(** * soa2ledger: rule resolution and entry formatting

    A shallow embedding of [Entry] from [soa2ledger.py]: field extraction
    ([eval_rule], [__init__]), the rule filter ([filter_rules]), the resolver
    ([build_entry_string]) and the posting renderer ([entry_template]),
    followed by the properties of the specification that concern them.

    Python objects are dynamically typed; the values met here are [None],
    strings, integers and lists, gathered in [pyvalue].  Floats are left out:
    their text form is floating-point formatting.  Strings are byte strings.
    A raised exception is an explicit [Raise] result. *)

From Stdlib Require Import ZArith QArith String Ascii List Bool Lia.
From stdpp Require Import base option list strings gmap pretty.

Local Open Scope string_scope.
Local Open Scope Z_scope.

(** ** Python values and exceptions *)

#[warnings="-register-all"]
Inductive pyvalue : Type :=
| PyNone
| PyStr (s : string)
| PyInt (z : Z)
| PyList (l : list pyvalue).

Inductive exn : Type :=
| AttributeError
| TypeError
| IndexError
| ValueError
| KeyError
| NameError
| SyntaxError
| OverflowError
| MemoryError.

Inductive result (A : Type) : Type :=
| Ok (a : A)
| Raise (e : exn).
Arguments Ok {A} a.
Arguments Raise {A} e.

#[global] Instance result_ret : MRet result := @Ok.
#[global] Instance result_bind : MBind result :=
  λ A B f m, match m with Ok a => f a | Raise e => Raise e end.
#[global] Instance result_fmap : FMap result :=
  λ A B f m, match m with Ok a => Ok (f a) | Raise e => Raise e end.

(** [a == b] on the values above: structural, never true across types. *)
Fixpoint py_eqb (a b : pyvalue) : bool :=
  match a, b with
  | PyNone, PyNone => true
  | PyStr s, PyStr t => String.eqb s t
  | PyInt x, PyInt y => Z.eqb x y
  | PyList l, PyList m =>
      (fix go (l m : list pyvalue) : bool :=
         match l, m with
         | [], [] => true
         | x :: l', y :: m' => py_eqb x y && go l' m'
         | _, _ => false
         end) l m
  | _, _ => false
  end.

(** ** String helpers: [str.replace], [str.startswith], [n * " "] *)

Fixpoint replace_char (a b : ascii) (s : string) : string :=
  match s with
  | EmptyString => EmptyString
  | String c s' => String (if Ascii.eqb c a then b else c) (replace_char a b s')
  end.

(** [s.replace(".", ",")] *)
Definition replace_dot (s : string) : string := replace_char "." "," s.

(** [s.startswith(p)] *)
Definition startswith (p s : string) : bool := String.prefix p s.

Fixpoint repeat_space (n : nat) : string :=
  match n with
  | O => EmptyString
  | S n' => String " " (repeat_space n')
  end.

(** [n] blanks, none for [n <= 0]: what [n * " "] is when it does not
    raise. *)
Definition spaces (n : Z) : string := repeat_space (Z.to_nat n).

(** Iterating a string yields its one-character strings. *)
Fixpoint chars (s : string) : list pyvalue :=
  match s with
  | EmptyString => []
  | String c s' => PyStr (String c EmptyString) :: chars s'
  end.

(** [for x in v] *)
Definition py_iter (v : pyvalue) : result (list pyvalue) :=
  match v with
  | PyList l => Ok l
  | PyStr s => Ok (chars s)
  | PyNone | PyInt _ => Raise TypeError
  end.

(** [v[i]] for an index [i >= 0] *)
Definition py_getitem (v : pyvalue) (i : nat) : result pyvalue :=
  match v with
  | PyList l => match l !! i with Some x => Ok x | None => Raise IndexError end
  | PyStr s => match chars s !! i with Some x => Ok x | None => Raise IndexError end
  | PyNone | PyInt _ => Raise TypeError
  end.

(** ** Rules and options *)

(** A rule is a section of the rules file: a dict from keys to strings. *)
Abbreviation rule := (gmap string string).

(** [rule.get(key, default)] *)
Definition rule_get (r : rule) (key : string) (dflt : pyvalue) : pyvalue :=
  match r !! key with
  | Some v => PyStr v
  | None => dflt
  end.

(** The options dict; its ['rules'] entry, a list of dicts, is kept apart. *)
Record Options : Type := {
  opts : gmap string pyvalue;
  rules : list rule
}.

(** [options.get(key)] *)
Definition options_get (o : Options) (key : string) : pyvalue :=
  default PyNone (opts o !! key).

(** ** Entries *)

Section WithRow.

(** The raw row: an XML element or a named tuple read from the CSV file. *)
Context {Row : Type}.

Record Entry : Type := {
  options : Options;
  EL : Row;
  def_asset_acc : pyvalue;
  book_date : pyvalue;
  val_date : pyvalue;
  amount : pyvalue;
  currency : pyvalue;
  creditor : pyvalue;
  creditor_acc : option pyvalue;   (* [None]: attribute not assigned yet *)
  debitor : pyvalue;
  debitor_acc : option pyvalue;    (* [None]: attribute not assigned yet *)
  subject : pyvalue;
  title : pyvalue
}.

Definition set_title (v : pyvalue) (e : Entry) : Entry :=
  {| options := options e; EL := EL e; def_asset_acc := def_asset_acc e;
     book_date := book_date e; val_date := val_date e; amount := amount e;
     currency := currency e; creditor := creditor e;
     creditor_acc := creditor_acc e; debitor := debitor e;
     debitor_acc := debitor_acc e; subject := subject e; title := v |}.

Definition set_creditor_acc (v : pyvalue) (e : Entry) : Entry :=
  {| options := options e; EL := EL e; def_asset_acc := def_asset_acc e;
     book_date := book_date e; val_date := val_date e; amount := amount e;
     currency := currency e; creditor := creditor e;
     creditor_acc := Some v; debitor := debitor e;
     debitor_acc := debitor_acc e; subject := subject e; title := title e |}.

Definition set_debitor_acc (v : pyvalue) (e : Entry) : Entry :=
  {| options := options e; EL := EL e; def_asset_acc := def_asset_acc e;
     book_date := book_date e; val_date := val_date e; amount := amount e;
     currency := currency e; creditor := creditor e;
     creditor_acc := creditor_acc e; debitor := debitor e;
     debitor_acc := Some v; subject := subject e; title := title e |}.

(** The builtins the code calls and that lie outside the repository. [eval]
    is taken as a pure function of the text and of the names in scope at the
    call. *)
Class Python : Type := {
  (** [eval(rule)] in [eval_rule]: [options], [EL], [rule_for] in scope *)
  py_eval_rule : Options → Row → string → string → result pyvalue;
  (** [eval(creditor_acc)] in [entry_template]: [options], [self] in scope *)
  py_eval_acc : Options → Entry → string → result pyvalue;
  (** [repr(v)], the text of a list *)
  py_repr : list pyvalue → string;
  (** [int(s)] on a string *)
  py_int_str : string → result Z;
  (** whether [n * " "] raises, and what: [OverflowError] for an [n] past
      the index size of the build, [MemoryError] for one past the memory at
      hand *)
  py_mul_raises : Z → option exn
}.

Context `{!Python}.

(** [str(v)], also what an f-string field prints. *)
Definition py_str (v : pyvalue) : string :=
  match v with
  | PyNone => "None"
  | PyStr s => s
  | PyInt z => pretty z
  | PyList l => py_repr l
  end.

(** [int(v)] *)
Definition py_int (v : pyvalue) : result Z :=
  match v with
  | PyInt z => Ok z
  | PyStr s => py_int_str s
  | PyNone | PyList _ => Raise TypeError
  end.

(** [n * " "] *)
Definition py_mul_space (n : Z) : result string :=
  match py_mul_raises n with
  | Some x => Raise x
  | None => Ok (spaces n)
  end.

(** [int(options.get('ledger_indent'))*" "] *)
Definition py_indent (o : Options) : result string :=
  n ← py_int (options_get o "ledger_indent");
  py_mul_space n.

(** [eval(v)]: the argument must be a string. *)
Definition py_eval_in_rule (o : Options) (el : Row) (rule_for : string)
    (v : pyvalue) : result pyvalue :=
  match v with
  | PyStr s => py_eval_rule o el rule_for s
  | _ => Raise TypeError
  end.

(** [Entry.eval_rule] *)
Definition eval_rule (o : Options) (el : Row) (rule_for : string)
    : result pyvalue :=
  match py_eval_in_rule o el rule_for (options_get o rule_for) with
  | Raise AttributeError => Ok (PyStr "None")
  | r => r
  end.

(** [v.replace(".", ",")]: only strings have the method. *)
Definition py_replace_dot (v : pyvalue) : result pyvalue :=
  match v with
  | PyStr s => Ok (PyStr (replace_dot s))
  | _ => Raise AttributeError
  end.

(** [Entry.__init__] *)
Definition Entry_init (el : Row) (o : Options) : result Entry :=
  let def_asset := options_get o "def_asset_acc" in
  bd ← eval_rule o el "book_date";
  vd ← eval_rule o el "val_date";
  am ← eval_rule o el "amount";
  cu0 ← eval_rule o el "currency";
  cu ← py_replace_dot cu0;
  cr ← eval_rule o el "creditor";
  db ← eval_rule o el "debitor";
  su ← eval_rule o el "subject";
  mret {| options := o; EL := el; def_asset_acc := def_asset;
          book_date := bd; val_date := vd; amount := am; currency := cu;
          creditor := cr; creditor_acc := None; debitor := db;
          debitor_acc := None; subject := su; title := cr |}.

(** Reading an attribute that was never assigned raises. *)
Definition getattr (a : option pyvalue) : result pyvalue :=
  match a with
  | Some v => Ok v
  | None => Raise AttributeError
  end.

(** [creditor_acc.startswith('[[')] *)
Definition py_startswith (p : string) (v : pyvalue) : result bool :=
  match v with
  | PyStr s => Ok (startswith p s)
  | _ => Raise AttributeError
  end.

(** [eval(creditor_acc)] *)
Definition py_eval_in_acc (o : Options) (e : Entry) (v : pyvalue)
    : result pyvalue :=
  match v with
  | PyStr s => py_eval_acc o e s
  | _ => Raise TypeError
  end.

(** One posting line, without its line end. *)
Definition posting_line (ind acc cur amt : string) : string :=
  ind ++ acc ++ ind ++ cur ++ " " ++ amt.

(** The first line of an entry. *)
Definition date_line (bd vd ttl : pyvalue) : string :=
  if py_eqb bd vd
  then py_str bd ++ " " ++ py_str ttl ++ "
"
  else py_str bd ++ "=" ++ py_str vd ++ " " ++ py_str ttl ++ "
".

(** One turn of the loop over the lines of a split. *)
Definition split_line (ind cur : string) (entry : string) (line : pyvalue)
    : result string :=
  l1 ← py_getitem line 1;
  let amount_p := replace_dot (py_str l1) in
  l0 ← py_getitem line 0;
  Ok (entry ++ posting_line ind (py_str l0) cur amount_p ++ "
").

Fixpoint split_lines (ind cur : string) (entry : string) (lines : list pyvalue)
    : result string :=
  match lines with
  | [] => Ok entry
  | line :: rest =>
      entry' ← split_line ind cur entry line;
      split_lines ind cur entry' rest
  end.

(** [Entry.entry_template] *)
Definition entry_template (e : Entry) (o : Options) : result string :=
  cacc ← getattr (creditor_acc e);
  dacc ← getattr (debitor_acc e);
  ind ← py_indent o;
  let cur := py_str (currency e) in
  let amt := py_str (amount e) in
  let entry := date_line (book_date e) (val_date e) (title e) in
  split ← py_startswith "[[" cacc;
  entry ←
    (if split : bool then
       v ← py_eval_in_acc o e cacc;
       lines ← py_iter v;
       split_lines ind cur entry lines
     else
       Ok (entry ++ posting_line ind (py_str cacc) cur amt ++ "
"));
  Ok (entry ++ posting_line ind (py_str dacc) cur ("-" ++ amt)).

(** [filter_rules], local to [build_entry_string] *)
Definition filter_rules (rs : list rule) (key : string) (val : pyvalue)
    : list rule :=
  List.filter (λ r, py_eqb (rule_get r key val) val) rs.

(** The assignments of the three matching branches. *)
Definition assign_income (m : rule) (e : Entry) : Entry :=
  let e := set_title (rule_get m "title" (creditor e)) e in
  let e := set_debitor_acc (rule_get m "dbtr_acc" PyNone) e in
  set_creditor_acc (rule_get m "cdtr_acc" (def_asset_acc e)) e.

Definition assign_expense (m : rule) (e : Entry) : Entry :=
  let e := set_title (rule_get m "title" (creditor e)) e in
  let e := set_creditor_acc (rule_get m "cdtr_acc" PyNone) e in
  set_debitor_acc (rule_get m "dbtr_acc" (def_asset_acc e)) e.

(** The loop over several creditor matches: each match is assigned to the
    entry and rendered; a raise leaves the entry as assigned so far. *)
Fixpoint render_matches (o : Options) (ms : list rule) (e : Entry)
    (entry_string : string) : Entry * result string :=
  match ms with
  | [] => (e, Ok entry_string)
  | m :: rest =>
      let e := assign_expense m e in
      match entry_template e o with
      | Ok s => render_matches o rest e (entry_string ++ s ++ "
")
      | Raise x => (e, Raise x)
      end
  end.

(** [Entry.build_entry_string]: the entry after the call and what the call
    returns. *)
Definition build_entry_string (e : Entry) (o : Options)
    : Entry * result string :=
  let account := options_get o "account" in
  let import_rules := rules o in
  let account_rules := filter_rules import_rules "account" account in
  let matches_dbtr := filter_rules account_rules "dbtr" (debitor e) in
  match matches_dbtr with
  | [] =>
      let e := set_title (debitor e) e in
      let e := set_creditor_acc (def_asset_acc e) e in
      let e := set_debitor_acc (PyStr "Income:???") e in
      (e, entry_template e o)
  | [m] =>
      let e := assign_income m e in
      (e, entry_template e o)
  | _ =>
      let matches_cdtr := filter_rules matches_dbtr "cdtr" (creditor e) in
      match matches_cdtr with
      | [] =>
          let e := set_creditor_acc (PyStr "Expenses:???") e in
          let e := set_debitor_acc (def_asset_acc e) e in
          (e, entry_template e o)
      | [m] =>
          let e := assign_expense m e in
          (e, entry_template e o)
      | _ =>
          render_matches o matches_cdtr e ";
; Multiple matches. Pick one
"
      end
  end.

(** The rules of the selected account that match the debitor, and those of
    them that match the creditor: the locals of [build_entry_string]. *)
Definition matches_dbtr (e : Entry) (o : Options) : list rule :=
  filter_rules (filter_rules (rules o) "account" (options_get o "account"))
    "dbtr" (debitor e).

Definition matches_cdtr (e : Entry) (o : Options) : list rule :=
  filter_rules (matches_dbtr e o) "cdtr" (creditor e).

(** The five outcomes, by the branch [build_entry_string] takes. *)
Inductive Outcome : Type :=
| UnmatchedIncoming
| SingleIncomeMatch
| UnmatchedExpense
| SingleExpenseMatch
| Ambiguous.

Definition outcome (e : Entry) (o : Options) : Outcome :=
  match matches_dbtr e o with
  | [] => UnmatchedIncoming
  | [_] => SingleIncomeMatch
  | _ =>
      match matches_cdtr e o with
      | [] => UnmatchedExpense
      | [_] => SingleExpenseMatch
      | _ => Ambiguous
      end
  end.

(** The fields resolution leaves alone. *)
Definition same_source_fields (e e' : Entry) : Prop :=
  options e' = options e ∧ EL e' = EL e ∧ def_asset_acc e' = def_asset_acc e
  ∧ book_date e' = book_date e ∧ val_date e' = val_date e
  ∧ amount e' = amount e ∧ currency e' = currency e
  ∧ creditor e' = creditor e ∧ debitor e' = debitor e
  ∧ subject e' = subject e.

End WithRow.

Arguments Entry Row : clear implicits.
Arguments Python Row : clear implicits.

(** *** The rule filter as the specification words it

    A rule passes when it has no entry for the key, or when its entry is the
    very string the value is. *)
Definition rule_passes (key : string) (val : pyvalue) (r : rule) : Prop :=
  r !! key = None ∨ ∃ v, r !! key = Some v ∧ val = PyStr v.

Definition rule_passesb (key : string) (val : pyvalue) (r : rule) : bool :=
  match r !! key with
  | None => true
  | Some v =>
      match val with
      | PyStr w => String.eqb v w
      | _ => false
      end
  end.

Definition spec_filter (rs : list rule) (key : string) (val : pyvalue)
    : list rule :=
  List.filter (rule_passesb key val) rs.

(** ** Postings and their amounts *)

Section Postings.

Context {Row : Type} `{!Python Row}.

(** The posting of one line of a split: account text and amount text. *)
Definition split_posting (line : pyvalue) : result (string * string) :=
  l1 ← py_getitem line 1;
  l0 ← py_getitem line 0;
  Ok (py_str l0, replace_dot (py_str l1)).

Fixpoint split_postings (lines : list pyvalue) : result (list (string * string)) :=
  match lines with
  | [] => Ok []
  | line :: rest =>
      p ← split_posting line;
      ps ← split_postings rest;
      Ok (p :: ps)
  end.

(** The creditor-side postings [entry_template] writes. *)
Definition creditor_postings (e : Entry Row) (o : Options)
    : result (list (string * string)) :=
  cacc ← getattr (creditor_acc e);
  split ← py_startswith "[[" cacc;
  if split : bool then
    v ← py_eval_in_acc o e cacc;
    lines ← py_iter v;
    split_postings lines
  else
    Ok [(py_str cacc, py_str (amount e))].

(** The debitor posting [entry_template] writes last. *)
Definition debitor_posting (e : Entry Row) : result (string * string) :=
  dacc ← getattr (debitor_acc e);
  Ok (py_str dacc, "-" ++ py_str (amount e)).

(** All postings of the entry, in the order of their lines. *)
Definition entry_postings (e : Entry Row) (o : Options)
    : result (list (string * string)) :=
  cps ← creditor_postings e o;
  d ← debitor_posting e;
  Ok (cps ++ [d])%list.

(** The posting lines as text: one per posting, joined by line ends. *)
Definition render_postings (ind cur : string) (ps : list (string * string))
    : string :=
  String.concat "
" (map (λ p, posting_line ind p.1 cur p.2) ps).

(** The entries [build_entry_string] hands to [entry_template]: the entry
    as assigned in the branch taken, one per creditor match in the loop. *)
Definition resolved_entries (e : Entry Row) (o : Options)
    : list (Entry Row) :=
  match matches_dbtr e o with
  | [] =>
      [set_debitor_acc (PyStr "Income:???")
         (set_creditor_acc (def_asset_acc e) (set_title (debitor e) e))]
  | [m] => [assign_income m e]
  | _ =>
      match matches_cdtr e o with
      | [] =>
          [set_debitor_acc (def_asset_acc e)
             (set_creditor_acc (PyStr "Expenses:???") e)]
      | ms => map (λ m, assign_expense m e) ms
      end
  end.

(** The creditor-side account of an entry can be written: it is a string,
    and either no split, or a split that evaluates to lines with an item 0
    and an item 1 each. *)
Definition account_renders (o : Options) (e : Entry Row) : Prop :=
  ∃ a, creditor_acc e = Some (PyStr a)
       ∧ (startswith "[[" a = false
          ∨ ∃ v lines ps, py_eval_acc o e a = Ok v
                          ∧ py_iter v = Ok lines
                          ∧ split_postings lines = Ok ps).

End Postings.

(** *** The number an amount literal denotes

    An amount literal is a run of digits, optionally followed by a decimal
    mark ([,] or [.]) and a further run of digits, optionally preceded by one
    minus sign. *)

Definition digit_of (c : ascii) : option N :=
  let n := N_of_ascii c in
  if ((48 <=? n) && (n <=? 57))%N then Some (n - 48)%N else None.

Definition is_decimal_mark (c : ascii) : bool :=
  Ascii.eqb c "," || Ascii.eqb c ".".

Fixpoint parse_frac (m : N) (k : nat) (s : string) : option (N * nat) :=
  match s with
  | EmptyString => Some (m, k)
  | String c r =>
      match digit_of c with
      | Some d => parse_frac (10 * m + d)%N (S k) r
      | None => None
      end
  end.

Fixpoint parse_int (m : N) (s : string) : option (N * nat) :=
  match s with
  | EmptyString => Some (m, O)
  | String c r =>
      match digit_of c with
      | Some d => parse_int (10 * m + d)%N r
      | None =>
          if is_decimal_mark c then
            match r with
            | EmptyString => None
            | _ => parse_frac m O r
            end
          else None
      end
  end.

Definition pow10 (k : nat) : positive := Nat.iter k (Pos.mul 10) 1%positive.

Definition unsigned_value (s : string) : option Q :=
  match s with
  | EmptyString => None
  | String c _ =>
      match digit_of c with
      | None => None
      | Some _ =>
          match parse_int 0%N s with
          | Some (m, k) => Some (Z.of_N m # pow10 k)
          | None => None
          end
      end
  end.

Definition amount_value (s : string) : option Q :=
  match s with
  | EmptyString => None
  | String c r =>
      if Ascii.eqb c "-" then Qopp <$> unsigned_value r else unsigned_value s
  end.

(** The sum of the amounts of a list of postings, when all are literals. *)
Fixpoint postings_total (ps : list (string * string)) : option Q :=
  match ps with
  | [] => Some 0%Q
  | p :: rest =>
      match amount_value p.2, postings_total rest with
      | Some q, Some t => Some (q + t)%Q
      | _, _ => None
      end
  end.

(** The postings sum to zero. *)
Definition balanced (ps : list (string * string)) : bool :=
  match postings_total ps with
  | Some t => Qeq_bool t 0
  | None => false
  end.

(** ** A fragment of the builtins, to run the model on concrete inputs

    The rows are named tuples as the CSV reader yields them: field names with
    their texts.  [eval] is covered on the expressions used below:
    [EL.name] and [EL[n]] for a field; a list of lists of single-quoted texts
    (without quote or backslash) and canonical decimal integers for an
    account.  [int] is covered on runs of digits.  [SyntaxError], and
    [ValueError] for [int], also stand for any text outside this fragment.
    [n * " "] raises past the index size and not before. *)

Abbreviation csv_row := (list (string * string)).

Fixpoint strip_prefix (p s : string) : option string :=
  match p, s with
  | EmptyString, _ => Some s
  | String a p', String b s' => if Ascii.eqb a b then strip_prefix p' s' else None
  | _, _ => None
  end.

Definition is_name_char (c : ascii) : bool :=
  let n := N_of_ascii c in
  ((97 <=? n) && (n <=? 122) || (n =? 95))%N.

Fixpoint is_name (s : string) : bool :=
  match s with
  | EmptyString => true
  | String c r => is_name_char c && is_name r
  end.

Fixpoint field_lookup (el : csv_row) (name : string) : option string :=
  match el with
  | [] => None
  | (k, v) :: rest => if String.eqb k name then Some v else field_lookup rest name
  end.

(** The digits of an index up to the closing bracket. *)
Fixpoint parse_index (n : nat) (seen : bool) (s : string) : option nat :=
  match s with
  | EmptyString => None
  | String c r =>
      match digit_of c with
      | Some d => parse_index (10 * n + N.to_nat d)%nat true r
      | None =>
          if Ascii.eqb c "]" && seen then
            match r with EmptyString => Some n | _ => None end
          else None
      end
  end.

Definition eval_field (el : csv_row) (s : string) : result pyvalue :=
  match strip_prefix "EL." s with
  | Some name =>
      if negb (is_name name) || String.eqb name "" then Raise SyntaxError
      else match field_lookup el name with
           | Some v => Ok (PyStr v)
           | None => Raise AttributeError
           end
  | None =>
      match strip_prefix "EL[" s with
      | Some rest =>
          match parse_index 0 false rest with
          | Some i =>
              match el !! i with
              | Some (_, v) => Ok (PyStr v)
              | None => Raise IndexError
              end
          | None => Raise SyntaxError
          end
      | None => Raise SyntaxError
      end
  end.

(** The reader of account literals: a state machine over the characters. *)
Inductive lit_state : Type :=
| LStart
| LOpen (lines : list pyvalue)
| LItem (lines atoms : list pyvalue)
| LText (lines atoms : list pyvalue) (acc : string)
| LSign (lines atoms : list pyvalue)
| LNum (lines atoms : list pyvalue) (neg : bool) (n : N)
| LNext (lines atoms : list pyvalue)
| LClosed (lines : list pyvalue)
| LDone (lines : list pyvalue)
| LFail.

Definition push_char (acc : string) (c : ascii) : string :=
  acc ++ String c EmptyString.

Definition signed (neg : bool) (n : N) : Z :=
  if neg then - Z.of_N n else Z.of_N n.

Definition lit_step (st : lit_state) (c : ascii) : lit_state :=
  let blank := Ascii.eqb c " " in
  match st with
  | LStart =>
      if blank then LStart else if Ascii.eqb c "[" then LOpen [] else LFail
  | LOpen lines =>
      if blank then st else if Ascii.eqb c "[" then LItem lines [] else LFail
  | LItem lines atoms =>
      if blank then st
      else if Ascii.eqb c "'" then LText lines atoms ""
      else if Ascii.eqb c "-" then LSign lines atoms
      else match digit_of c with
           | Some d => LNum lines atoms false d
           | None => LFail
           end
  | LText lines atoms acc =>
      if Ascii.eqb c "'" then LNext lines (atoms ++ [PyStr acc])
      else if Ascii.eqb c "\" then LFail
      else LText lines atoms (push_char acc c)
  | LSign lines atoms =>
      match digit_of c with
      | Some d => LNum lines atoms true d
      | None => LFail
      end
  | LNum lines atoms neg n =>
      match digit_of c with
      | Some d => if (n =? 0)%N then LFail else LNum lines atoms neg (10 * n + d)%N
      | None =>
          let atoms' := (atoms ++ [PyInt (signed neg n)])%list in
          if blank then LNext lines atoms'
          else if Ascii.eqb c "," then LItem lines atoms'
          else if Ascii.eqb c "]" then LClosed (lines ++ [PyList atoms'])
          else LFail
      end
  | LNext lines atoms =>
      if blank then st
      else if Ascii.eqb c "," then LItem lines atoms
      else if Ascii.eqb c "]" then LClosed (lines ++ [PyList atoms])
      else LFail
  | LClosed lines =>
      if blank then st
      else if Ascii.eqb c "," then LOpen lines
      else if Ascii.eqb c "]" then LDone lines
      else LFail
  | LDone lines => if blank then st else LFail
  | LFail => LFail
  end.

Fixpoint lit_run (st : lit_state) (s : string) : lit_state :=
  match s with
  | EmptyString => st
  | String c r => lit_run (lit_step st c) r
  end.

Definition eval_literal (s : string) : result pyvalue :=
  match lit_run LStart s with
  | LDone lines => Ok (PyList lines)
  | _ => Raise SyntaxError
  end.

(** [int] on a run of digits. *)
Definition int_digits (s : string) : result Z :=
  match s with
  | EmptyString => Raise ValueError
  | _ => match parse_frac 0 0 s with
         | Some (m, _) => Ok (Z.of_N m)
         | None => Raise ValueError
         end
  end.

(** [repr] of quote-free texts, integers and lists of them. *)
Fixpoint repr_value (v : pyvalue) : string :=
  match v with
  | PyNone => "None"
  | PyStr s => "'" ++ s ++ "'"
  | PyInt z => pretty z
  | PyList l =>
      "[" ++ String.concat ", "
               ((fix go (l : list pyvalue) : list string :=
                   match l with
                   | [] => []
                   | x :: r => repr_value x :: go r
                   end) l)
          ++ "]"
  end.

Definition repr_list (l : list pyvalue) : string := repr_value (PyList l).

(** The largest index of a 64-bit build. *)
Definition sys_maxsize : Z := 2 ^ 63 - 1.

#[global] Instance fragment_python : Python csv_row := {|
  py_eval_rule := λ _ el _ s, eval_field el s;
  py_eval_acc := λ _ _ s, eval_literal s;
  py_repr := repr_list;
  py_int_str := int_digits;
  py_mul_raises := λ n, if sys_maxsize <? n then Some OverflowError else None
|}.

(** The built-in defaults of the program ([editor] as without [$EDITOR]). *)
Definition default_options : gmap string pyvalue :=
  list_to_map
    [("ledger_indent", PyInt 4); ("reverse", PyStr "True");
     ("editor", PyNone); ("rules", PyNone); ("ledger_file", PyNone);
     ("def_asset_acc", PyNone); ("xml_main", PyStr "Ntry");
     ("csv_offset", PyInt 0); ("csv_delimiter", PyStr ",");
     ("book_date", PyNone); ("val_date", PyNone); ("creditor", PyNone);
     ("debitor", PyNone); ("currency", PyNone); ("amount", PyNone);
     ("subject", PyList [PyNone])].

(** Options as [get_updated_options] returns them: the defaults overridden
    by the configuration, and the rules. *)
Definition make_options (conf : list (string * pyvalue)) (rs : list rule)
    : Options :=
  {| opts := list_to_map conf ∪ default_options; rules := rs |}.

Definition sample_row : csv_row :=
  [("date", "2024-03-01"); ("valuta", "2024-03-01"); ("amount", "123.45");
   ("currency", "EUR"); ("payee", "Supermarket"); ("payer", "Myself");
   ("memo", "groceries")].

Definition sample_conf : list (string * pyvalue) :=
  [("account", PyStr "giro"); ("def_asset_acc", PyStr "Assets:Giro");
   ("book_date", PyStr "EL.date"); ("val_date", PyStr "EL.valuta");
   ("amount", PyStr "EL.amount"); ("currency", PyStr "EL.currency");
   ("creditor", PyStr "EL.payee"); ("debitor", PyStr "EL.payer");
   ("subject", PyStr "EL.memo")].

Definition mk_rule (kvs : list (string * string)) : rule := list_to_map kvs.


(** The entry [Entry.__init__] builds from [sample_row] under [sample_conf]. *)
Definition sample_entry (o : Options) : Entry csv_row :=
  {| options := o; EL := sample_row; def_asset_acc := PyStr "Assets:Giro";
     book_date := PyStr "2024-03-01"; val_date := PyStr "2024-03-01";
     amount := PyStr "123.45"; currency := PyStr "EUR";
     creditor := PyStr "Supermarket"; creditor_acc := None;
     debitor := PyStr "Myself"; debitor_acc := None;
     subject := PyStr "groceries"; title := PyStr "Supermarket" |}.

Definition rule_food : rule :=
  mk_rule [("dbtr", "Myself"); ("cdtr", "Supermarket");
           ("cdtr_acc", "Expenses:Food")].

Definition rule_home : rule :=
  mk_rule [("dbtr", "Myself"); ("cdtr", "Supermarket");
           ("cdtr_acc", "Expenses:Home")].

Definition rule_bread : rule :=
  mk_rule [("dbtr", "Myself"); ("cdtr", "Baker");
           ("cdtr_acc", "Expenses:Bread")].

Definition rule_meat : rule :=
  mk_rule [("dbtr", "Myself"); ("cdtr", "Butcher");
           ("cdtr_acc", "Expenses:Meat")].

(** A rule that names the debitor-side account only. *)
Definition rule_giro_only : rule :=
  mk_rule [("dbtr", "Myself"); ("cdtr", "Supermarket");
           ("dbtr_acc", "Assets:Giro")].

(** A rule whose creditor-side account is a split. *)
Definition rule_split : rule :=
  mk_rule [("dbtr", "Myself"); ("cdtr", "Supermarket");
           ("cdtr_acc", "[['Expenses:Food', 1], ['Expenses:Home', 2]]")].

(** A rule for a salary: the only one for its debitor. *)
Definition rule_salary : rule :=
  mk_rule [("dbtr", "Employer GmbH"); ("dbtr_acc", "Income:Salary")].

Definition salary_row : csv_row :=
  [("date", "2024-03-28"); ("valuta", "2024-03-29"); ("amount", "2500");
   ("currency", "EUR"); ("payee", "Jane Doe"); ("payer", "Employer GmbH");
   ("memo", "salary")].

Definition salary_entry (o : Options) : Entry csv_row :=
  {| options := o; EL := salary_row; def_asset_acc := PyStr "Assets:Giro";
     book_date := PyStr "2024-03-28"; val_date := PyStr "2024-03-29";
     amount := PyStr "2500"; currency := PyStr "EUR";
     creditor := PyStr "Jane Doe"; creditor_acc := None;
     debitor := PyStr "Employer GmbH"; debitor_acc := None;
     subject := PyStr "salary"; title := PyStr "Jane Doe" |}.

(** Two rules for the creditor of the salary, with another debitor. *)
Definition rule_rent : rule :=
  mk_rule [("dbtr", "Myself"); ("cdtr", "Jane Doe");
           ("cdtr_acc", "Expenses:Rent")].

Definition rule_gift : rule :=
  mk_rule [("dbtr", "Myself"); ("cdtr", "Jane Doe");
           ("cdtr_acc", "Expenses:Gifts")].

(** The rule sets of the runs below, under [sample_conf]. *)
Definition options_shops : Options :=
  make_options sample_conf [rule_food; rule_home].

Definition options_salary : Options :=
  make_options sample_conf [rule_salary; rule_rent; rule_gift].

Definition options_elsewhere : Options :=
  make_options sample_conf [rule_bread; rule_meat].

Definition options_food : Options :=
  make_options sample_conf [rule_food; rule_bread].

Definition options_twice : Options :=
  make_options sample_conf [rule_food; rule_bread; rule_home].

Definition options_split : Options :=
  make_options sample_conf [rule_split; rule_bread].

Definition options_giro_only : Options :=
  make_options sample_conf [rule_giro_only; rule_bread].

(** A configuration whose expression names a field the rows lack, one whose
    expression indexes past the row, and one without expressions. *)
Definition options_no_field : Options :=
  make_options [("book_date", PyStr "EL.booked")] [].

Definition options_no_column : Options :=
  make_options [("book_date", PyStr "EL[9]")] [].

Definition options_bare : Options := make_options [] [].

(** The resolved entry of the purchase under one rule, and under the split. *)
Definition food_entry : Entry csv_row :=
  (build_entry_string (sample_entry options_food) options_food).1.

Definition split_entry : Entry csv_row :=
  (build_entry_string (sample_entry options_split) options_split).1.

(** The text of several groups: each followed by a line end. *)
Fixpoint groups_text (gs : list string) : string :=
  match gs with
  | [] => EmptyString
  | g :: rest => g ++ "
" ++ groups_text rest
  end.

(** [p in s] *)
Fixpoint contains (p s : string) : bool :=
  match s with
  | EmptyString => String.eqb p EmptyString
  | String _ r => String.prefix p s || contains p r
  end.

(** An empty line: two line ends in a row. *)
Definition has_blank_line (s : string) : bool :=
  contains "

" s.

(** What resolution returns for the purchase two rules claim. *)
Definition twice_text : string :=
  ";
; Multiple matches. Pick one
2024-03-01 Supermarket
    Expenses:Food    EUR 123.45
    Assets:Giro    EUR -123.45
2024-03-01 Supermarket
    Expenses:Home    EUR 123.45
    Assets:Giro    EUR -123.45
".

(** What [entry_template] returns for the purchase under one rule. *)
Definition food_text : string :=
  "2024-03-01 Supermarket
    Expenses:Food    EUR 123.45
    Assets:Giro    EUR -123.45".

(** ** The header of an entry *)

(** [n * s] *)
Fixpoint repeat_string (n : nat) (s : string) : string :=
  match n with
  | O => EmptyString
  | S n' => s ++ repeat_string n' s
  end.

Section Header.

Context {Row : Type} `{!Python Row}.

(** The loop of [build_info_string] over the subject. *)
Fixpoint subject_lines (info_string : string) (lines : list pyvalue) : string :=
  match lines with
  | [] => info_string
  | line :: rest =>
      subject_lines (info_string ++ "; " ++ py_str line ++ "
") rest
  end.

(** [Entry.build_info_string] *)
Definition build_info_string (e : Entry Row) : result string :=
  let info_string :=
    "; " ++ py_str (book_date e) ++ "=" ++ py_str (val_date e)
    ++ ": " ++ py_str (debitor e) ++ " --> " ++ py_str (creditor e) ++ "
" in
  lines ← py_iter (subject e);
  Ok (subject_lines info_string lines ++ "; " ++ repeat_string 60 "#" ++ "
").

End Header.

(** A text without line end, and a text whose every line starts with [;]:
    [comment_scan b s] reads [s] from the start of a line ([b = true]) or
    from inside one, and tells whether it ends at the start of a line. *)
Fixpoint no_line_end (s : string) : bool :=
  match s with
  | EmptyString => true
  | String c r => negb (Ascii.eqb c "010") && no_line_end r
  end.

Fixpoint comment_scan (at_start : bool) (s : string) : option bool :=
  match s with
  | EmptyString => Some at_start
  | String c r =>
      if at_start && negb (Ascii.eqb c ";") then None
      else comment_scan (Ascii.eqb c "010") r
  end.

(** ** The batch loop

    What the editor and the file system may raise is left out. *)

(** What the program writes: the standard output and the ledger file. *)
Record World : Type := {
  stdout : string;
  ledger : string
}.

(** [print(combined, "\n")]: the two arguments separated by a blank and
    followed by a line end. *)
Definition print_combined (combined : string) (w : World) : World :=
  {| stdout := stdout w ++ combined ++ " " ++ "
" ++ "
";
     ledger := ledger w |}.

(** [append_to_ledger]: the file is opened for appending. *)
Definition append_to_ledger (entry : string) (w : World) : World :=
  {| stdout := stdout w; ledger := ledger w ++ entry |}.

Section Main.

Context {Row : Type} `{!Python Row}.

(** [edit_string_with_editor]: what the user saves in the editor. *)
Variable edit_string_with_editor : string → string.

(** One turn of the loop of [main], up to the text [combined]. *)
Definition combined_text (o : Options) (raw_entry : Row) : result string :=
  e ← Entry_init raw_entry o;
  info_string ← build_info_string e;
  entry_string ← (build_entry_string e o).2;
  Ok (info_string ++ entry_string).

Fixpoint main_loop (o : Options) (dryrun : bool) (iterable : list Row)
    (w : World) : World * result unit :=
  match iterable with
  | [] => (w, Ok ())
  | raw_entry :: rest =>
      match combined_text o raw_entry with
      | Raise x => (w, Raise x)
      | Ok combined =>
          if dryrun then main_loop o dryrun rest (print_combined combined w)
          else
            let edited := edit_string_with_editor combined in
            main_loop o dryrun rest (append_to_ledger edited w)
      end
  end.

(** [main], from the options [get_updated_options] returns ([dryrun] is
    whether [options['dryrun']] is [True]) and the rows
    [iterable_from_file] returns. *)
Definition main (o : Options) (dryrun : bool) (rows : list Row) (w : World)
    : World * result unit :=
  let iterable :=
    if py_eqb (options_get o "reverse") (PyStr "True") then rev rows
    else rows in
  main_loop o dryrun iterable w.

End Main.

(** ** The configuration *)

(** The parsed command line. *)
Record Args : Type := {
  args_import_file : pyvalue;
  args_account : pyvalue;
  args_dryrun : bool
}.

(** [for k, v in items: options.update({k: v})] over a section of the
    ini-file, whose values are strings. *)
Definition update_items (options : gmap string pyvalue)
    (items : list (string * string)) : gmap string pyvalue :=
  foldl (λ opts kv, <[kv.1 := PyStr kv.2]> opts) options items.

(** [get_updated_options], from what it reads: the items of the section
    [main], the items of the section of the selected account, the command
    line and the rules.  The entries [rules] and [dryrun], a list and a
    bool, are kept apart. *)
Definition get_updated_options (options : gmap string pyvalue)
    (main_items account_items : list (string * string)) (args : Args)
    (rs : list rule) : Options * bool :=
  let options := update_items options main_items in
  let options := update_items options account_items in
  let options := <["import_file" := args_import_file args]> options in
  let options := <["account" := args_account args]> options in
  ({| opts := delete "rules" (delete "dryrun" options); rules := rs |},
   args_dryrun args).

(** The value a list of items holds for a key: that of its last item with
    the key. *)
Fixpoint items_get (items : list (string * string)) (key : string)
    : option string :=
  match items with
  | [] => None
  | (k, v) :: rest =>
      match items_get rest key with
      | Some w => Some w
      | None => if String.eqb k key then Some v else None
      end
  end.

(** ** The import file *)

Definition ascii_lower (c : ascii) : ascii :=
  let n := N_of_ascii c in
  if ((65 <=? n) && (n <=? 90))%N then ascii_of_N (n + 32) else c.

(** [s.lower()], on the letters of ASCII *)
Fixpoint lower (s : string) : string :=
  match s with
  | EmptyString => EmptyString
  | String c r => String (ascii_lower c) (lower r)
  end.

(** [s.endswith(p)] *)
Fixpoint endswith (p s : string) : bool :=
  String.eqb p s
  || match s with
     | EmptyString => false
     | String _ r => endswith p r
     end.

Inductive import_kind : Type :=
| XmlFile
| CsvFile.

Inductive import_error : Type :=
| NoLowerAttribute      (* [AttributeError]: the file name is no string *)
| ArgumentTypeError.    (* the type of the file is not supported *)

(** The branch [iterable_from_file] takes. *)
Definition import_file_kind (import_file : pyvalue)
    : import_kind + import_error :=
  match import_file with
  | PyStr s =>
      if endswith ".xml" (lower s) then inl XmlFile
      else if endswith ".csv" (lower s) then inl CsvFile
      else inr ArgumentTypeError
  | _ => inr NoLowerAttribute
  end.

(** [s.partition(sep)] for a separator of one character. *)
Fixpoint partition (sep : ascii) (s : string) : string * string * string :=
  match s with
  | EmptyString => (EmptyString, EmptyString, EmptyString)
  | String c r =>
      if Ascii.eqb c sep then (EmptyString, String sep EmptyString, r)
      else
        let '(prefix, found, postfix) := partition sep r in
        (String c prefix, found, postfix)
  end.

(** The tag of an element after the loop that strips the namespaces. *)
Definition strip_namespace (tag : string) : string :=
  let '(prefix, has_namespace, postfix) := partition "}" tag in
  match has_namespace with
  | EmptyString => tag
  | _ => postfix
  end.

(** No character of the text is the given one. *)
Fixpoint lacks_char (c : ascii) (s : string) : bool :=
  match s with
  | EmptyString => true
  | String d r => negb (Ascii.eqb d c) && lacks_char c r
  end.

(** ** Further runs *)

(** A rule for the employer that names the creditor-side account only. *)
Definition rule_refund : rule :=
  mk_rule [("dbtr", "Employer GmbH"); ("cdtr_acc", "Assets:Giro")].

(** A rule of another account, and a rule without conditions. *)
Definition rule_savings : rule :=
  mk_rule [("account", "savings"); ("dbtr", "Myself");
           ("cdtr_acc", "Assets:Savings")].

Definition rule_any : rule := mk_rule [("cdtr_acc", "Expenses:Misc")].

Definition options_refund : Options :=
  make_options sample_conf [rule_refund; rule_food].

Definition options_savings : Options :=
  make_options sample_conf [rule_savings].

Definition options_any : Options :=
  make_options sample_conf [rule_food; rule_any].

(** The configuration with an indent that is no number, and the one without
    default asset account. *)
Definition options_no_indent : Options :=
  make_options (("ledger_indent", PyNone) :: sample_conf) [rule_food].

Definition options_no_asset : Options :=
  make_options (("def_asset_acc", PyNone) :: sample_conf) [rule_food].

Definition salary_entry_no_asset : Entry csv_row :=
  {| options := options_no_asset; EL := salary_row; def_asset_acc := PyNone;
     book_date := PyStr "2024-03-28"; val_date := PyStr "2024-03-29";
     amount := PyStr "2500"; currency := PyStr "EUR";
     creditor := PyStr "Jane Doe"; creditor_acc := None;
     debitor := PyStr "Employer GmbH"; debitor_acc := None;
     subject := PyStr "salary"; title := PyStr "Jane Doe" |}.

(** The fields [__init__] extracts, in its order. *)
Definition entry_fields : list string :=
  ["book_date"; "val_date"; "amount"; "currency"; "creditor"; "debitor";
   "subject"].

(** A configuration whose expressions all name a field the rows lack. *)
Definition options_absent : Options :=
  make_options (map (λ f, (f, PyStr "EL.absent")) entry_fields) [].

(** A split with decimal sub-amounts, and one with a line of one item. *)
Definition rule_split_decimal : rule :=
  mk_rule [("dbtr", "Myself"); ("cdtr", "Supermarket");
           ("cdtr_acc", "[['Expenses:Food', '100.45'], ['Expenses:Home', '23.00']]")].

Definition rule_split_short : rule :=
  mk_rule [("dbtr", "Myself"); ("cdtr", "Supermarket");
           ("cdtr_acc", "[['Expenses:Food']]")].

Definition options_split_decimal : Options :=
  make_options sample_conf [rule_split_decimal; rule_bread].

Definition options_split_short : Options :=
  make_options sample_conf [rule_split_short; rule_bread].

Definition split_decimal_entry : Entry csv_row :=
  (build_entry_string (sample_entry options_split_decimal)
     options_split_decimal).1.

Definition split_short_entry : Entry csv_row :=
  (build_entry_string (sample_entry options_split_short)
     options_split_short).1.

(** A configuration that reads the fields by their position, a row that is
    too short for it, and an editor that saves the text as it is. *)
Definition options_indexed : Options :=
  make_options
    [("account", PyStr "giro"); ("def_asset_acc", PyStr "Assets:Giro");
     ("book_date", PyStr "EL[0]"); ("val_date", PyStr "EL[1]");
     ("amount", PyStr "EL[2]"); ("currency", PyStr "EL[3]");
     ("creditor", PyStr "EL[4]"); ("debitor", PyStr "EL[5]");
     ("subject", PyStr "EL[6]")]
    [rule_food; rule_bread].

Definition short_row : csv_row := [("date", "2024-03-02")].

Definition keep_text (s : string) : string := s.

Definition empty_world : World := {| stdout := ""; ledger := "" |}.

(** A command line that names the account only. *)
Definition args_account_only : Args :=
  {| args_import_file := PyNone; args_account := PyStr "giro";
     args_dryrun := false |}.

(** The items of an ini-file with an indent in both sections. *)
Definition main_section : list (string * string) :=
  [("ledger_indent", "2"); ("def_asset_acc", "Assets:Giro");
   ("import_file", "old.csv")].

Definition giro_section : list (string * string) :=
  [("ledger_indent", "8")].

(** The tag of an entry of a bank statement, with its namespace. *)
Definition statement_namespace : string :=
  "{urn:iso:std:iso:20022:tech:xsd:camt.053.001.02".

(** * Properties *)

(** ** Equality of values and text *)

Lemma py_eqb_eq (a b : pyvalue) : py_eqb a b = true ↔ a = b.
Proof.
  revert a b. fix IH 1. intros [|s|x|l] [|t|y|m]; simpl; try (split; congruence).
  - rewrite String.eqb_eq. split; congruence.
  - rewrite Z.eqb_eq. split; congruence.
  - revert m. induction l as [|v l IHl]; intros [|w m]; try (split; congruence).
    rewrite andb_true_iff, IH, IHl. split.
    + intros [-> E]. congruence.
    + intros E. split; congruence.
Qed.

Lemma py_eqb_refl (a : pyvalue) : py_eqb a a = true.
Proof. by apply py_eqb_eq. Qed.

Lemma string_app_assoc (a b c : string) : (a ++ b) ++ c = a ++ b ++ c.
Proof.
  induction a as [|x a IH]; [done|].
  change (String x ((a ++ b) ++ c) = String x (a ++ b ++ c)). by rewrite IH.
Qed.

(** ** The rule filter *)

Lemma rule_passesb_iff key val r :
  rule_passesb key val r = true ↔ rule_passes key val r.
Proof.
  unfold rule_passesb, rule_passes. destruct (r !! key) as [v|].
  - destruct val as [|w| |]; try (split; [done|intros [F|(u & F & G)]; congruence]).
    rewrite String.eqb_eq. split.
    + intros ->. right. eauto.
    + intros [F|(u & F & G)]; congruence.
  - split; auto.
Qed.

Lemma filter_rules_pointwise key val r :
  py_eqb (rule_get r key val) val = rule_passesb key val r.
Proof.
  unfold rule_get, rule_passesb. destruct (r !! key) as [v|].
  - by destruct val.
  - apply py_eqb_refl.
Qed.

Lemma filter_rules_spec_filter rs key val :
  filter_rules rs key val = spec_filter rs key val.
Proof.
  unfold filter_rules, spec_filter.
  induction rs as [|r rs IH]; [done|]. simpl.
  by rewrite filter_rules_pointwise, IH.
Qed.

Lemma elem_of_filter_rules rs key val r :
  r ∈ filter_rules rs key val ↔ r ∈ rs ∧ rule_passes key val r.
Proof.
  rewrite filter_rules_spec_filter. unfold spec_filter.
  rewrite !list_elem_of_In, filter_In, rule_passesb_iff. tauto.
Qed.

Lemma filter_rules_sublist rs key val : filter_rules rs key val `sublist_of` rs.
Proof.
  unfold filter_rules. induction rs as [|r rs IH]; simpl; [done|].
  destruct (py_eqb _ _); by constructor.
Qed.

Lemma filter_rules_length rs key val :
  (length (filter_rules rs key val) ≤ length rs)%nat.
Proof. apply sublist_length, filter_rules_sublist. Qed.

(** C6: [filter_rules] returns exactly the rules that have no entry for the
    key or whose entry is the value as a string, in their order in the rule
    list; a rule without the key passes whatever the value, and a rule with
    the key passes for the very same string only. *)
Theorem filter_rules_exact (rs : list rule) (key : string) (val : pyvalue) :
  filter_rules rs key val = spec_filter rs key val
  ∧ filter_rules rs key val `sublist_of` rs
  ∧ (∀ r, r ∈ filter_rules rs key val ↔ r ∈ rs ∧ rule_passes key val r)
  ∧ (∀ r, r ∈ rs → r !! key = None → r ∈ filter_rules rs key val)
  ∧ (∀ r v w, r ∈ rs → r !! key = Some v → val = PyStr w →
       (r ∈ filter_rules rs key val ↔ v = w)).
Proof.
  split; [apply filter_rules_spec_filter|].
  split; [apply filter_rules_sublist|].
  split; [intros r; apply elem_of_filter_rules|].
  split.
  - intros r Hr Hk. apply elem_of_filter_rules. split; [done|by left].
  - intros r v w Hr Hk ->. rewrite elem_of_filter_rules. unfold rule_passes.
    rewrite Hk. split.
    + intros [_ [F|(u & F & G)]]; congruence.
    + intros ->. split; [done|right; eauto].
Qed.

(** ** Resolution *)

Section Resolution.

Context {Row : Type} `{!Python Row}.
Implicit Types (e : Entry Row) (o : Options) (m : rule).

Lemma same_source_fields_refl e : same_source_fields e e.
Proof. by repeat split. Qed.

Lemma same_source_fields_trans e1 e2 e3 :
  same_source_fields e1 e2 → same_source_fields e2 e3 →
  same_source_fields e1 e3.
Proof.
  unfold same_source_fields. intros H1 H2.
  destruct_and!. repeat split; congruence.
Qed.

Lemma assign_expense_same e m : same_source_fields e (assign_expense m e).
Proof. by repeat split. Qed.

Lemma assign_income_same e m : same_source_fields e (assign_income m e).
Proof. by repeat split. Qed.

(** An assignment overwrites what an earlier one wrote. *)
Lemma assign_expense_again e e' m :
  same_source_fields e e' → assign_expense m e' = assign_expense m e.
Proof.
  unfold same_source_fields. intros H. destruct_and!.
  destruct e, e'; simpl in *. subst. reflexivity.
Qed.

Lemma render_matches_same o ms : ∀ e acc,
  same_source_fields e (render_matches o ms e acc).1.
Proof.
  induction ms as [|m ms IH]; intros e acc; simpl.
  - apply same_source_fields_refl.
  - destruct (entry_template (assign_expense m e) o) as [s|x]; simpl.
    + eapply same_source_fields_trans; [apply (assign_expense_same e m)|apply IH].
    + apply assign_expense_same.
Qed.

Lemma Entry_init_ok el o e :
  Entry_init el o = Ok e →
  title e = creditor e ∧ def_asset_acc e = options_get o "def_asset_acc"
  ∧ creditor_acc e = None ∧ debitor_acc e = None
  ∧ eval_rule o el "amount" = Ok (amount e)
  ∧ (∃ c, eval_rule o el "currency" = Ok (PyStr c)
          ∧ currency e = PyStr (replace_dot c)).
Proof.
  unfold Entry_init. intros H.
  destruct (eval_rule o el "book_date"); [|done].
  destruct (eval_rule o el "val_date"); [|done].
  destruct (eval_rule o el "amount"); [|done].
  destruct (eval_rule o el "currency") as [cu|]; [|done].
  destruct cu as [|c| |]; try done.
  destruct (eval_rule o el "creditor"); [|done].
  destruct (eval_rule o el "debitor"); [|done].
  destruct (eval_rule o el "subject"); [|done].
  simpl in H. injection H as <-. simpl. eauto 10.
Qed.

(** The indent is the blanks of the integer, when neither step raises. *)
Lemma py_indent_int o n :
  py_int (options_get o "ledger_indent") = Ok n →
  py_indent o = py_mul_space n.
Proof. intros H. unfold py_indent. by rewrite H. Qed.

Lemma py_indent_ok o ind :
  py_indent o = Ok ind →
  ∃ n, py_int (options_get o "ledger_indent") = Ok n ∧ ind = spaces n.
Proof.
  unfold py_indent, py_mul_space.
  destruct (py_int (options_get o "ledger_indent")) as [n|]; [|done]. simpl.
  destruct (py_mul_raises n); [done|]. intros [= <-]. eauto.
Qed.

(** What [entry_template] returns for an account that is no split. *)
Lemma entry_template_plain e o c d :
  creditor_acc e = Some (PyStr c) → startswith "[[" c = false →
  debitor_acc e = Some d →
  entry_template e o =
    (ind ← py_indent o;
     Ok ((date_line (book_date e) (val_date e) (title e)
          ++ posting_line ind c (py_str (currency e)) (py_str (amount e))
          ++ "
")
         ++ posting_line ind (py_str d) (py_str (currency e))
              ("-" ++ py_str (amount e)))).
Proof.
  intros Hc Hs Hd. unfold entry_template.
  rewrite Hc, Hd. simpl. destruct (py_indent o) as [ind|]; [|done]. simpl.
  by rewrite Hs.
Qed.

(** [build_entry_string] by its branches. *)
Lemma build_entry_string_cases e o :
  build_entry_string e o =
    match matches_dbtr e o with
    | [] =>
        let e' := set_debitor_acc (PyStr "Income:???")
                    (set_creditor_acc (def_asset_acc e)
                       (set_title (debitor e) e)) in
        (e', entry_template e' o)
    | [m] => (assign_income m e, entry_template (assign_income m e) o)
    | _ =>
        match matches_cdtr e o with
        | [] =>
            let e' := set_debitor_acc (def_asset_acc e)
                        (set_creditor_acc (PyStr "Expenses:???") e) in
            (e', entry_template e' o)
        | [m] => (assign_expense m e, entry_template (assign_expense m e) o)
        | ms => render_matches o ms e ";
; Multiple matches. Pick one
"
        end
    end.
Proof.
  unfold build_entry_string. fold (matches_dbtr e o).
  destruct (matches_dbtr e o) as [|m1 [|m2 ms]] eqn:E; [done..|].
  rewrite <- E. fold (matches_cdtr e o).
  by destruct (matches_cdtr e o) as [|c1 [|c2 cs]].
Qed.

(** The branch taken is decided by the two lists of matches. *)
Lemma matches_cdtr_length e o :
  (length (matches_cdtr e o) ≤ length (matches_dbtr e o))%nat.
Proof. apply filter_rules_length. Qed.

(** C5: with no rule of the selected account matching the debitor, the
    outcome is UnmatchedIncoming: the title becomes the debitor, the
    creditor-side account the default asset account (the configured one, for
    an entry as constructed), the debitor-side account the placeholder
    [Income:???], and the entry is rendered from these. *)
Theorem unmatched_incoming e o :
  matches_dbtr e o = [] →
  outcome e o = UnmatchedIncoming
  ∧ title (build_entry_string e o).1 = debitor e
  ∧ creditor_acc (build_entry_string e o).1 = Some (def_asset_acc e)
  ∧ debitor_acc (build_entry_string e o).1 = Some (PyStr "Income:???")
  ∧ (build_entry_string e o).2 = entry_template (build_entry_string e o).1 o
  ∧ (∀ el, Entry_init el o = Ok e →
       creditor_acc (build_entry_string e o).1
       = Some (options_get o "def_asset_acc")).
Proof.
  intros H. unfold outcome, build_entry_string.
  fold (matches_dbtr e o). rewrite H. simpl.
  repeat split; try done.
  intros el Hi. apply Entry_init_ok in Hi. destruct_and!. congruence.
Qed.

(** C4: with exactly one rule of the selected account matching the debitor,
    whatever the creditor matches, the outcome is SingleIncomeMatch: the
    title is the rule's title or else the creditor, the debitor-side account
    the rule's [dbtr_acc], the creditor-side account the rule's [cdtr_acc] or
    else the default asset account, and the entry is rendered from these. *)
Theorem single_income_match e o m :
  matches_dbtr e o = [m] →
  outcome e o = SingleIncomeMatch
  ∧ title (build_entry_string e o).1 = rule_get m "title" (creditor e)
  ∧ debitor_acc (build_entry_string e o).1 = Some (rule_get m "dbtr_acc" PyNone)
  ∧ creditor_acc (build_entry_string e o).1
    = Some (rule_get m "cdtr_acc" (def_asset_acc e))
  ∧ (build_entry_string e o).2 = entry_template (build_entry_string e o).1 o.
Proof.
  intros H. unfold outcome, build_entry_string.
  fold (matches_dbtr e o). rewrite H. simpl. by repeat split.
Qed.

(** C8: [build_entry_string], with the calls of [entry_template] it makes,
    leaves every field but [title], [creditor_acc] and [debitor_acc] as it
    was: [options], [EL], [def_asset_acc], [book_date], [val_date], [amount],
    [currency], [creditor], [debitor] and [subject]. *)
Theorem resolution_frame e o :
  same_source_fields e (build_entry_string e o).1.
Proof.
  unfold build_entry_string.
  destruct (filter_rules _ "dbtr" _) as [|m [|m' ms]]; [by repeat split..|].
  generalize (filter_rules (m :: m' :: ms) "cdtr" (creditor e)).
  intros [|c [|c' cs]]; [by repeat split..|].
  apply render_matches_same.
Qed.

(** C10: with at least two debitor matches and no creditor match the
    resolver leaves the title as it was; for an entry as constructed that is
    the creditor, which the first line of the rendered entry then carries:
    once the indent is an integer, what is returned is that entry, or what
    making the blanks of the indent raises. *)
Theorem unmatched_expense_title e o :
  (2 ≤ length (matches_dbtr e o))%nat →
  matches_cdtr e o = [] →
  outcome e o = UnmatchedExpense
  ∧ title (build_entry_string e o).1 = title e
  ∧ (∀ el n, Entry_init el o = Ok e →
       py_int (options_get o "ledger_indent") = Ok n →
       title (build_entry_string e o).1 = creditor e
       ∧ (build_entry_string e o).2 =
           (ind ← py_mul_space n;
            Ok ((date_line (book_date e) (val_date e) (creditor e)
                 ++ posting_line ind "Expenses:???"
                      (py_str (currency e)) (py_str (amount e))
                 ++ "
")
                ++ posting_line ind (py_str (def_asset_acc e))
                     (py_str (currency e)) ("-" ++ py_str (amount e))))).
Proof.
  intros Hd Hc. unfold outcome. rewrite build_entry_string_cases, Hc.
  destruct (matches_dbtr e o) as [|m [|m' ms]]; simpl in Hd; [lia..|].
  split; [done|]. split; [done|].
  intros el n Hi Hn. apply Entry_init_ok in Hi as (Ht & _).
  split; [done|]. cbn zeta. cbn [snd].
  erewrite entry_template_plain; [|reflexivity|reflexivity|reflexivity].
  rewrite (py_indent_int o n Hn). simpl. by rewrite Ht.
Qed.

End Resolution.

(** ** Amount literals *)

Lemma digit_not_minus c d : digit_of c = Some d → Ascii.eqb c "-" = false.
Proof.
  intros H. destruct (Ascii.eqb_spec c "-") as [->|]; [|done].
  by vm_compute in H.
Qed.

Lemma unsigned_value_first s q :
  unsigned_value s = Some q →
  ∃ c r d, s = String c r ∧ digit_of c = Some d.
Proof.
  destruct s as [|c r]; [done|]. simpl.
  destruct (digit_of c) as [d|] eqn:E; [|done]. eauto.
Qed.

Lemma amount_value_unsigned s q :
  unsigned_value s = Some q → amount_value s = Some q.
Proof.
  intros H. destruct (unsigned_value_first _ _ H) as (c & r & d & -> & Hd).
  unfold amount_value. by rewrite (digit_not_minus _ _ Hd).
Qed.

Lemma amount_value_negated s q :
  unsigned_value s = Some q → amount_value ("-" ++ s) = Some (- q)%Q.
Proof.
  intros H. change ("-" ++ s) with (String "-" s).
  unfold amount_value. by rewrite Ascii.eqb_refl, H.
Qed.

Lemma postings_total_snoc ps acc a t q :
  postings_total ps = Some t → amount_value a = Some q →
  ∃ tot, postings_total (ps ++ [(acc, a)]) = Some tot ∧ (tot == t + q)%Q.
Proof.
  revert t. induction ps as [|p ps IH]; intros t Ht Ha; simpl in *.
  - injection Ht as <-. rewrite Ha. eexists. split; [done|]. ring.
  - destruct (amount_value p.2) as [x|]; [|done].
    destruct (postings_total ps) as [u|]; [|done]. injection Ht as <-.
    destruct (IH u eq_refl Ha) as (tot & -> & Htot).
    eexists. split; [done|]. rewrite Htot. ring.
Qed.

Lemma balanced_snoc ps acc a t q :
  postings_total ps = Some t → unsigned_value a = Some q →
  balanced (ps ++ [(acc, "-" ++ a)]) = true ↔ (t == q)%Q.
Proof.
  intros Ht Ha. apply amount_value_negated in Ha.
  destruct (postings_total_snoc ps acc _ t _ Ht Ha) as (tot & E & Htot).
  unfold balanced. rewrite E, Qeq_bool_iff, Htot. split; intros H.
  - rewrite <- (Qplus_0_r q), <- H. ring.
  - rewrite H. ring.
Qed.

(** ** The text and the postings of an entry *)

Lemma string_app_nil_r (a : string) : a ++ "" = a.
Proof.
  induction a as [|x a IH]; [done|].
  change (String x (a ++ "") = String x a). by rewrite IH.
Qed.

Lemma concat_snoc (l : list string) (x : string) :
  String.concat "
" (l ++ [x]) = groups_text l ++ x.
Proof.
  induction l as [|y l IH]; [done|].
  change (String.concat "
" (y :: (l ++ [x])) = (y ++ "
" ++ groups_text l) ++ x).
  rewrite string_app_assoc, string_app_assoc, <- IH.
  by destruct l.
Qed.

Section Rendering.

Context {Row : Type} `{!Python Row}.
Implicit Types (e : Entry Row) (o : Options).

Lemma split_lines_postings ind cur lines : ∀ entry,
  split_lines ind cur entry lines =
    (ps ← split_postings lines;
     Ok (entry ++ groups_text (map (λ p, posting_line ind p.1 cur p.2) ps))).
Proof.
  induction lines as [|line lines IH]; intros entry; simpl.
  - by rewrite string_app_nil_r.
  - unfold split_line, split_posting.
    destruct (py_getitem line 1) as [l1|]; [|done]. simpl.
    destruct (py_getitem line 0) as [l0|]; [|done]. simpl.
    rewrite IH. destruct (split_postings lines) as [ps|]; [|done]. simpl.
    by rewrite !string_app_assoc.
Qed.

(** [entry_template] writes the date line and then the postings. *)
Lemma entry_template_text e o s :
  entry_template e o = Ok s ↔
  ∃ ind ps, py_indent o = Ok ind
    ∧ entry_postings e o = Ok ps
    ∧ s = date_line (book_date e) (val_date e) (title e)
          ++ render_postings ind (py_str (currency e)) ps.
Proof.
  unfold entry_template, entry_postings, creditor_postings, debitor_posting.
  destruct (creditor_acc e) as [cacc|]; simpl; [|split; [done|by intros (?&?&?&?&?)]].
  destruct (debitor_acc e) as [dacc|]; simpl.
  2: { split; [done|]. intros (?&?&?&H&?).
       destruct (py_startswith "[[" cacc) as [[]|]; simpl in H; [|done..].
       destruct (py_eval_in_acc o e cacc); simpl in H; [|done].
       destruct (py_iter a); simpl in H; [|done].
       by destruct (split_postings a0). }
  destruct (py_indent o) as [ind|x]; simpl;
    [|split; [done|by intros (?&?&?&?&?)]].
  destruct (py_startswith "[[" cacc) as [[]|]; simpl;
    [| |split; [done|by intros (?&?&?&?&?)]].
  - destruct (py_eval_in_acc o e cacc) as [v|]; simpl;
      [|split; [done|by intros (?&?&?&?&?)]].
    destruct (py_iter v) as [lines|]; simpl;
      [|split; [done|by intros (?&?&?&?&?)]].
    rewrite split_lines_postings.
    destruct (split_postings lines) as [ps|]; simpl;
      [|split; [done|by intros (?&?&?&?&?)]].
    split.
    + intros [= <-]. eexists _, _. split; [done|]. split; [done|].
      unfold render_postings. rewrite map_app. cbn [map]. rewrite concat_snoc.
      by rewrite string_app_assoc.
    + intros (? & ? & [= <-] & [= <-] & ->).
      unfold render_postings. rewrite map_app. cbn [map]. rewrite concat_snoc.
      by rewrite string_app_assoc.
  - split.
    + intros [= <-]. eexists _, _. split; [done|]. split; [done|].
      unfold render_postings. simpl. by rewrite !string_app_assoc.
    + intros (? & ? & [= <-] & [= <-] & ->).
      unfold render_postings. simpl. by rewrite !string_app_assoc.
Qed.

(** The postings of an entry whose creditor-side account is no split. *)
Lemma plain_postings e o c d :
  creditor_acc e = Some (PyStr c) → startswith "[[" c = false →
  debitor_acc e = Some d →
  entry_postings e o =
    Ok [(c, py_str (amount e)); (py_str d, "-" ++ py_str (amount e))].
Proof.
  intros Hc Hs Hd. unfold entry_postings, creditor_postings, debitor_posting.
  rewrite Hc, Hd. simpl. by rewrite Hs.
Qed.

Lemma plain_postings_balanced (c d a : string) q :
  unsigned_value a = Some q → balanced [(c, a); (d, "-" ++ a)] = true.
Proof.
  intros Ha. apply (balanced_snoc [(c, a)] d a (q + 0)%Q q); [|done|ring].
  simpl. by rewrite (amount_value_unsigned _ _ Ha).
Qed.

(** C1: for an entry whose amount prints as an unsigned literal, the text
    [entry_template] returns is the date line and the postings; the last
    posting is the debitor's and carries the amount negated; with a
    creditor-side account that is no split the one creditor posting carries
    the amount and the postings sum to zero; with a split they sum to zero
    exactly when the sub-amounts sum to the amount. *)
Theorem entry_template_balance e o s q :
  entry_template e o = Ok s →
  unsigned_value (py_str (amount e)) = Some q →
  ∃ n cps dacc,
    py_int (options_get o "ledger_indent") = Ok n
    ∧ creditor_postings e o = Ok cps
    ∧ debitor_acc e = Some dacc
    ∧ s = date_line (book_date e) (val_date e) (title e)
          ++ render_postings (spaces n) (py_str (currency e))
               (cps ++ [(py_str dacc, "-" ++ py_str (amount e))])
    ∧ amount_value ("-" ++ py_str (amount e)) = Some (- q)%Q
    ∧ (∀ c, creditor_acc e = Some (PyStr c) → startswith "[[" c = false →
         cps = [(c, py_str (amount e))]
         ∧ balanced (cps ++ [(py_str dacc, "-" ++ py_str (amount e))]) = true)
    ∧ (∀ t, postings_total cps = Some t →
         (balanced (cps ++ [(py_str dacc, "-" ++ py_str (amount e))]) = true
          ↔ (t == q)%Q)).
Proof.
  intros Hs Hq. apply entry_template_text in Hs as (ind & ps & Hi & Hps & ->).
  destruct (py_indent_ok _ _ Hi) as (n & Hn & ->).
  unfold entry_postings, debitor_posting in Hps.
  destruct (creditor_postings e o) as [cps|] eqn:Hc; [|done]. simpl in Hps.
  destruct (debitor_acc e) as [dacc|] eqn:Hd; [|done]. simpl in Hps.
  injection Hps as <-. exists n, cps, dacc.
  split; [done|]. split; [done|]. split; [done|]. split; [done|].
  split; [by apply amount_value_negated|]. split.
  - intros c Hca Hsw. unfold creditor_postings in Hc.
    rewrite Hca in Hc. simpl in Hc. rewrite Hsw in Hc. injection Hc as <-.
    split; [done|]. by apply (plain_postings_balanced _ _ _ q).
  - intros t Ht. by apply balanced_snoc.
Qed.

(** Every candidate of the loop is rendered from the entry as it came in. *)
Lemma render_matches_groups o e0 ms : ∀ e acc,
  same_source_fields e0 e →
  (render_matches o ms e acc).2 =
    (gs ← mapM (λ m, entry_template (assign_expense m e0) o) ms;
     Ok (acc ++ groups_text gs)).
Proof.
  induction ms as [|m ms IH]; intros e acc He; simpl.
  - by rewrite string_app_nil_r.
  - rewrite (assign_expense_again e0 e m He).
    destruct (entry_template (assign_expense m e0) o) as [g|x]; [|done].
    rewrite (IH _ _ (assign_expense_same e0 m)). simpl.
    destruct (mapM _ ms) as [gs|]; [|done]. simpl.
    by rewrite !string_app_assoc.
Qed.

(** C7: with two or more rules matching debitor and creditor the outcome is
    Ambiguous, and what is returned is the two comment lines [;] and
    [; Multiple matches. Pick one] followed by one group per matching rule,
    in the order of the rule list, each rendered from the entry as it came in
    with that rule's title and accounts, and each followed by one line end;
    if rendering a candidate raises, so does resolution.  A group whose rule
    names a creditor-side account that is no split balances when the amount
    prints as an unsigned literal. *)
Theorem ambiguous_groups e o :
  (2 ≤ length (matches_cdtr e o))%nat →
  outcome e o = Ambiguous
  ∧ matches_cdtr e o `sublist_of` rules o
  ∧ (build_entry_string e o).2 =
      (gs ← mapM (λ m, entry_template (assign_expense m e) o) (matches_cdtr e o);
       Ok (";
; Multiple matches. Pick one
" ++ groups_text gs))
  ∧ (∀ m c q, m ∈ matches_cdtr e o →
       m !! "cdtr_acc" = Some c → startswith "[[" c = false →
       unsigned_value (py_str (amount e)) = Some q →
       ∃ ps, entry_postings (assign_expense m e) o = Ok ps
             ∧ balanced ps = true).
Proof.
  intros Hc. pose proof (matches_cdtr_length e o) as Hd.
  split; [|split; [|split]].
  - unfold outcome.
    destruct (matches_dbtr e o) as [|m1 [|m2 ms]]; simpl in Hd; [lia..|].
    destruct (matches_cdtr e o) as [|c1 [|c2 cs]]; simpl in Hc; [lia..|done].
  - unfold matches_cdtr, matches_dbtr.
    etrans; [apply filter_rules_sublist|].
    etrans; [apply filter_rules_sublist|]. apply filter_rules_sublist.
  - unfold build_entry_string. fold (matches_dbtr e o).
    destruct (matches_dbtr e o) as [|m1 [|m2 ms]] eqn:E; simpl in Hd; [lia..|].
    rewrite <- E. fold (matches_cdtr e o).
    destruct (matches_cdtr e o) as [|c1 [|c2 cs]] eqn:F; simpl in Hc; [lia..|].
    apply render_matches_groups, same_source_fields_refl.
  - intros m c q _ Hm Hs Hq. eexists. split.
    + apply (plain_postings _ _ c (rule_get m "dbtr_acc" (def_asset_acc e)));
        [|done..]. simpl. unfold rule_get. by rewrite Hm.
    + by apply (plain_postings_balanced _ _ _ q).
Qed.

(** When the creditor-side postings can be made, and when an entry can be
    rendered. *)
Lemma creditor_postings_renders e o :
  (∃ cps, creditor_postings e o = Ok cps) ↔ account_renders o e.
Proof.
  unfold creditor_postings, account_renders.
  destruct (creditor_acc e) as [[|a| |]|]; simpl;
    try (split; [by intros (? & ?)|by intros (? & ? & ?)]).
  destruct (startswith "[[" a) eqn:Hs; simpl.
  - split.
    + intros (cps & H). exists a. split; [done|]. right.
      destruct (py_eval_acc o e a) as [v|]; [|done]. simpl in H.
      destruct (py_iter v) as [lines|] eqn:Hl; [|done]. simpl in H.
      by exists v, lines, cps.
    + intros (b & [= <-] & [H|(v & lines & ps & -> & Hl & Hp)]); [congruence|].
      simpl. rewrite Hl. simpl. eauto.
  - split; [|eauto]. intros _. exists a. split; [done|]. by left.
Qed.

Lemma entry_template_returns e o d :
  debitor_acc e = Some d →
  (∃ s, entry_template e o = Ok s)
  ↔ (∃ ind, py_indent o = Ok ind) ∧ account_renders o e.
Proof.
  intros Hd. rewrite <- creditor_postings_renders. split.
  - intros (s & (ind & ps & Hi & Hps & _)%entry_template_text).
    split; [eauto|]. unfold entry_postings in Hps.
    destruct (creditor_postings e o) as [cps|]; [eauto|done].
  - intros ((ind & Hi) & (cps & Hc)). eexists.
    apply entry_template_text. exists ind. eexists. split; [done|].
    split; [|done]. unfold entry_postings, debitor_posting.
    rewrite Hc, Hd. reflexivity.
Qed.

Lemma mapM_returns {A B} (f : A → result B) (l : list A) :
  (∃ ys, mapM f l = Ok ys) ↔ ∀ x, x ∈ l → ∃ y, f x = Ok y.
Proof.
  induction l as [|a l IH]; simpl.
  - split; [|by eexists]. intros _ x Hx. by apply elem_of_nil in Hx.
  - split.
    + intros (ys & H) x Hx. destruct (f a) as [y|] eqn:Ha; [|done].
      simpl in H. destruct (mapM f l) as [k|] eqn:Hl; [|done].
      apply elem_of_cons in Hx as [->|Hx]; [eauto|].
      apply (proj1 IH); eauto.
    + intros H. destruct (H a) as (y & ->); [by left|]. simpl.
      destruct (proj2 IH) as (k & ->); [|by eexists].
      intros x Hx. apply H. by right.
Qed.

(** C2: [build_entry_string] returns an entry string, raising nothing,
    exactly when the indent can be made and the creditor-side account of
    every entry it hands to [entry_template] can be written: a string that is
    no split, or a split that evaluates to lines with an item 0 and an item 1
    each.  Otherwise it raises. *)
Theorem resolution_returns e o :
  (∃ s, (build_entry_string e o).2 = Ok s)
  ↔ (∃ ind, py_indent o = Ok ind)
    ∧ ∀ e', e' ∈ resolved_entries e o → account_renders o e'.
Proof.
  assert (One : ∀ e1 d, debitor_acc e1 = Some d →
    (∃ s, entry_template e1 o = Ok s)
    ↔ (∃ ind, py_indent o = Ok ind)
      ∧ ∀ e', e' ∈ [e1] → account_renders o e').
  { intros e1 d Hd. rewrite (entry_template_returns e1 o d Hd).
    split; intros [Hi Hr]; (split; [done|]).
    - by intros e' ->%list_elem_of_singleton.
    - apply Hr. by left. }
  rewrite build_entry_string_cases. unfold resolved_entries.
  destruct (matches_dbtr e o) as [|m1 [|m2 ms]].
  1,2: by eapply One.
  destruct (matches_cdtr e o) as [|c1 [|c2 cs]].
  1,2: by eapply One.
  rewrite (render_matches_groups o e) by apply same_source_fields_refl.
  set (cms := c1 :: c2 :: cs).
  assert (Hg : (∃ s, (gs ← mapM (λ m, entry_template (assign_expense m e) o) cms;
                      Ok (";
; Multiple matches. Pick one
" ++ groups_text gs)) = Ok s)
    ↔ ∃ gs, mapM (λ m, entry_template (assign_expense m e) o) cms = Ok gs).
  { destruct (mapM _ cms) as [gs|]; simpl; split; eauto; by intros (? & ?). }
  rewrite Hg, mapM_returns. split.
  - intros H. split.
    + destruct (H c1) as (g & Hc1); [by left|].
      destruct (proj1 (entry_template_returns (assign_expense c1 e) o _
                         eq_refl)) as [Hi _]; [eauto|done].
    + intros e' (m & -> & Hm)%list_elem_of_fmap.
      destruct (H m Hm) as (g & Hg').
      destruct (proj1 (entry_template_returns (assign_expense m e) o _
                         eq_refl)) as [_ Hr]; [eauto|done].
  - intros [Hi Hr] m Hm.
    apply (proj2 (entry_template_returns (assign_expense m e) o _ eq_refl)).
    split; [done|]. apply Hr. apply list_elem_of_fmap. eauto.
Qed.

(** C9: when evaluating the extraction expression of a field raises
    [AttributeError], [eval_rule] returns the text [None] for the field. *)
Theorem eval_rule_placeholder o (el : Row) (rule_for rule : string) :
  options_get o rule_for = PyStr rule →
  py_eval_rule o el rule_for rule = Raise AttributeError →
  eval_rule o el rule_for = Ok (PyStr "None").
Proof. intros Ho He. unfold eval_rule. rewrite Ho. simpl. by rewrite He. Qed.

(** Any other exception leaves [eval_rule] as raised. *)
Lemma eval_rule_propagates o (el : Row) (rule_for rule : string) x :
  options_get o rule_for = PyStr rule →
  py_eval_rule o el rule_for rule = Raise x → x ≠ AttributeError →
  eval_rule o el rule_for = Raise x.
Proof.
  intros Ho He Hx. unfold eval_rule. rewrite Ho. simpl. rewrite He.
  by destruct x.
Qed.

End Rendering.

(** ** The model run on concrete transactions *)

Lemma sample_entry_init rs :
  Entry_init sample_row (make_options sample_conf rs)
  = Ok (sample_entry (make_options sample_conf rs)).
Proof. reflexivity. Qed.

Lemma salary_entry_init rs :
  Entry_init salary_row (make_options sample_conf rs)
  = Ok (salary_entry (make_options sample_conf rs)).
Proof. reflexivity. Qed.

(** C5 at the salary of an employer no rule knows. *)
Lemma unmatched_incoming_witness :
  matches_dbtr (salary_entry options_shops) options_shops = []
  ∧ outcome (salary_entry options_shops) options_shops = UnmatchedIncoming
  ∧ title (build_entry_string (salary_entry options_shops) options_shops).1
    = PyStr "Employer GmbH"
  ∧ creditor_acc (build_entry_string (salary_entry options_shops) options_shops).1
    = Some (PyStr "Assets:Giro")
  ∧ debitor_acc (build_entry_string (salary_entry options_shops) options_shops).1
    = Some (PyStr "Income:???").
Proof.
  assert (H : matches_dbtr (salary_entry options_shops) options_shops = [])
    by (vm_compute; reflexivity).
  split; [exact H|].
  destruct (unmatched_incoming _ _ H) as (Ho & Ht & Hc & Hd & _).
  split; [exact Ho|]. split; [exact Ht|]. split; [exact Hc|exact Hd].
Defined.

(** C4 at a salary one rule knows by its debitor, while two other rules name
    its creditor. *)
Lemma single_income_match_witness :
  matches_dbtr (salary_entry options_salary) options_salary = [rule_salary]
  ∧ outcome (salary_entry options_salary) options_salary = SingleIncomeMatch
  ∧ title (build_entry_string (salary_entry options_salary) options_salary).1
    = PyStr "Jane Doe"
  ∧ debitor_acc (build_entry_string (salary_entry options_salary) options_salary).1
    = Some (PyStr "Income:Salary")
  ∧ creditor_acc (build_entry_string (salary_entry options_salary) options_salary).1
    = Some (PyStr "Assets:Giro").
Proof.
  assert (H : matches_dbtr (salary_entry options_salary) options_salary
              = [rule_salary]) by (vm_compute; reflexivity).
  split; [exact H|].
  destruct (single_income_match _ _ rule_salary H) as (Ho & Ht & Hd & Hc & _).
  split; [exact Ho|]. split; [exact Ht|]. split; [exact Hd|exact Hc].
Defined.

(** C10 at a purchase whose creditor no rule knows. *)
Lemma unmatched_expense_title_witness :
  (2 ≤ length (matches_dbtr (sample_entry options_elsewhere) options_elsewhere))%nat
  ∧ matches_cdtr (sample_entry options_elsewhere) options_elsewhere = []
  ∧ title (build_entry_string (sample_entry options_elsewhere) options_elsewhere).1
    = PyStr "Supermarket"
  ∧ (build_entry_string (sample_entry options_elsewhere) options_elsewhere).2 =
      Ok "2024-03-01 Supermarket
    Expenses:???    EUR 123.45
    Assets:Giro    EUR -123.45".
Proof.
  assert (H1 : (2 ≤ length (matches_dbtr (sample_entry options_elsewhere)
                               options_elsewhere))%nat) by (vm_compute; lia).
  assert (H2 : matches_cdtr (sample_entry options_elsewhere) options_elsewhere
               = []) by (vm_compute; reflexivity).
  split; [exact H1|]. split; [exact H2|].
  destruct (unmatched_expense_title _ _ H1 H2) as (_ & _ & H).
  destruct (H sample_row 4 (sample_entry_init _) eq_refl) as (Ht & Hs).
  split; [exact Ht|exact Hs].
Defined.

(** C1 at a purchase resolved by one rule. *)
Lemma entry_template_balance_witness :
  entry_template food_entry options_food = Ok food_text
  ∧ unsigned_value (py_str (amount food_entry)) = Some (12345 # 100)%Q
  ∧ amount_value ("-" ++ py_str (amount food_entry)) = Some (- (12345 # 100))%Q
  ∧ balanced [("Expenses:Food", "123.45"); ("Assets:Giro", "-123.45")] = true.
Proof.
  assert (H1 : entry_template food_entry options_food = Ok food_text)
    by (vm_compute; reflexivity).
  assert (H2 : unsigned_value (py_str (amount food_entry))
               = Some (12345 # 100)%Q) by (vm_compute; reflexivity).
  split; [exact H1|]. split; [exact H2|].
  destruct (entry_template_balance _ _ _ _ H1 H2)
    as (n & cps & dacc & _ & _ & Hd & _ & Hneg & Hplain & _).
  split; [exact Hneg|].
  destruct (Hplain "Expenses:Food" eq_refl eq_refl) as (-> & Hb).
  assert (Hd' : debitor_acc food_entry = Some (PyStr "Assets:Giro"))
    by (vm_compute; reflexivity).
  rewrite Hd' in Hd. injection Hd as <-. exact Hb.
Defined.

(** C7 at a purchase that two rules claim. *)
Lemma ambiguous_groups_witness :
  (2 ≤ length (matches_cdtr (sample_entry options_twice) options_twice))%nat
  ∧ outcome (sample_entry options_twice) options_twice = Ambiguous
  ∧ (build_entry_string (sample_entry options_twice) options_twice).2
    = Ok twice_text.
Proof.
  assert (H : (2 ≤ length (matches_cdtr (sample_entry options_twice)
                              options_twice))%nat) by (vm_compute; lia).
  split; [exact H|].
  destruct (ambiguous_groups _ _ H) as (Ho & _ & Hs & _).
  split; [exact Ho|]. etrans; [exact Hs|]. vm_compute. reflexivity.
Defined.

(** C2 at the salary, whose rule names no creditor-side account so that the
    default asset account is written, and at the purchase under a split. *)
Lemma resolution_returns_witness :
  ((∃ ind, py_indent options_salary = Ok ind)
   ∧ (∀ e', e' ∈ resolved_entries (salary_entry options_salary) options_salary
        → account_renders options_salary e')
   ∧ ∃ s, (build_entry_string (salary_entry options_salary) options_salary).2
          = Ok s)
  ∧ ((∃ ind, py_indent options_split = Ok ind)
     ∧ (∀ e', e' ∈ resolved_entries (sample_entry options_split) options_split
          → account_renders options_split e')
     ∧ ∃ s, (build_entry_string (sample_entry options_split) options_split).2
            = Ok s).
Proof.
  split.
  - assert (H1 : ∃ ind, py_indent options_salary = Ok ind)
      by (exists "    "; vm_compute; reflexivity).
    assert (H2 : ∀ e',
      e' ∈ resolved_entries (salary_entry options_salary) options_salary
      → account_renders options_salary e').
    { intros e' He'.
      assert (E : resolved_entries (salary_entry options_salary) options_salary
                  = [assign_income rule_salary (salary_entry options_salary)])
        by (vm_compute; reflexivity).
      rewrite E in He'. apply list_elem_of_singleton in He' as ->.
      exists "Assets:Giro". split; [vm_compute; reflexivity|].
      left. reflexivity. }
    split; [exact H1|]. split; [exact H2|].
    exact (proj2 (resolution_returns (salary_entry options_salary)
                    options_salary) (conj H1 H2)).
  - assert (H1 : ∃ ind, py_indent options_split = Ok ind)
      by (exists "    "; vm_compute; reflexivity).
    assert (H2 : ∀ e',
      e' ∈ resolved_entries (sample_entry options_split) options_split
      → account_renders options_split e').
    { intros e' He'.
      assert (E : resolved_entries (sample_entry options_split) options_split
                  = [assign_expense rule_split (sample_entry options_split)])
        by (vm_compute; reflexivity).
      rewrite E in He'. apply list_elem_of_singleton in He' as ->.
      exists "[['Expenses:Food', 1], ['Expenses:Home', 2]]".
      split; [vm_compute; reflexivity|]. right.
      exists (PyList [PyList [PyStr "Expenses:Food"; PyInt 1];
                      PyList [PyStr "Expenses:Home"; PyInt 2]]),
             [PyList [PyStr "Expenses:Food"; PyInt 1];
              PyList [PyStr "Expenses:Home"; PyInt 2]],
             [("Expenses:Food", "1"); ("Expenses:Home", "2")].
      split; [vm_compute; reflexivity|]. split; reflexivity. }
    split; [exact H1|]. split; [exact H2|].
    exact (proj2 (resolution_returns (sample_entry options_split)
                    options_split) (conj H1 H2)).
Defined.

(** C9 at a row that lacks the field the expression names. *)
Lemma eval_rule_placeholder_witness :
  options_get options_no_field "book_date" = PyStr "EL.booked"
  ∧ py_eval_rule options_no_field sample_row "book_date" "EL.booked"
    = Raise AttributeError
  ∧ eval_rule options_no_field sample_row "book_date" = Ok (PyStr "None").
Proof.
  split; [reflexivity|]. split; [reflexivity|].
  exact (eval_rule_placeholder options_no_field sample_row "book_date"
           "EL.booked" eq_refl eq_refl).
Defined.

(** Against C1 as stated: a split whose sub-amounts, 1 and 2, are not the
    amount, 123.45; the postings sum to -120.45. *)
Lemma split_entry_unbalanced :
  Entry_init sample_row options_split = Ok (sample_entry options_split)
  ∧ entry_template split_entry options_split =
      Ok "2024-03-01 Supermarket
    Expenses:Food    EUR 1
    Expenses:Home    EUR 2
    Assets:Giro    EUR -123.45"
  ∧ entry_postings split_entry options_split =
      Ok [("Expenses:Food", "1"); ("Expenses:Home", "2");
          ("Assets:Giro", "-123.45")]
  ∧ (∃ t, postings_total [("Expenses:Food", "1"); ("Expenses:Home", "2");
                          ("Assets:Giro", "-123.45")] = Some t
          ∧ (t == - (12045 # 100))%Q)
  ∧ balanced [("Expenses:Food", "1"); ("Expenses:Home", "2");
              ("Assets:Giro", "-123.45")] = false.
Proof.
  split; [reflexivity|].
  split; [vm_compute; reflexivity|]. split; [vm_compute; reflexivity|].
  split; [|vm_compute; reflexivity].
  eexists. split; [vm_compute; reflexivity|]. reflexivity.
Qed.

(** Against C2 as stated: the one rule matching debitor and creditor names no
    creditor-side account, and rendering raises. *)
Lemma single_expense_raises :
  Entry_init sample_row options_giro_only = Ok (sample_entry options_giro_only)
  ∧ outcome (sample_entry options_giro_only) options_giro_only
    = SingleExpenseMatch
  ∧ creditor_acc
      (build_entry_string (sample_entry options_giro_only) options_giro_only).1
    = Some PyNone
  ∧ (build_entry_string (sample_entry options_giro_only) options_giro_only).2
    = Raise AttributeError.
Proof. repeat split; vm_compute; reflexivity. Qed.

(** C3 fails on the code: the amount [123.45] is written with its dot in
    both posting lines, where the claim has [EUR 123,45]; [__init__] replaces
    the dot in the currency and leaves the amount as extracted. *)
Lemma amount_keeps_dot :
  Entry_init sample_row options_food = Ok (sample_entry options_food)
  ∧ amount (sample_entry options_food) = PyStr "123.45"
  ∧ (build_entry_string (sample_entry options_food) options_food).2
    = Ok food_text
  ∧ contains "EUR 123.45" food_text = true
  ∧ contains "EUR 123,45" food_text = false.
Proof.
  split; [reflexivity|]. split; [reflexivity|].
  repeat split; vm_compute; reflexivity.
Qed.

(** Against C7 as stated: between the two groups there is one line end and
    no empty line, and the comment reads [Multiple matches. Pick one]. *)
Lemma ambiguous_no_blank_line :
  (2 ≤ length (matches_dbtr (sample_entry options_twice) options_twice))%nat
  ∧ matches_cdtr (sample_entry options_twice) options_twice
    = [rule_food; rule_home]
  ∧ (build_entry_string (sample_entry options_twice) options_twice).2
    = Ok twice_text
  ∧ has_blank_line twice_text = false
  ∧ contains "multiple matches, pick one" twice_text = false.
Proof.
  split; [vm_compute; lia|].
  repeat split; vm_compute; reflexivity.
Qed.

(** Against C9 as stated: an index the row does not have raises
    [IndexError], which [eval_rule] lets through; so does the [TypeError] of
    a field without expression. *)
Lemma eval_rule_raises :
  eval_rule options_no_column sample_row "book_date" = Raise IndexError
  ∧ eval_rule options_bare sample_row "book_date" = Raise TypeError.
Proof. split; reflexivity. Qed.

(** * Further properties of the code *)

(** ** The branches of resolution *)

Section Branches.

Context {Row : Type} `{!Python Row}.
Implicit Types (e : Entry Row) (o : Options) (m : rule).

Lemma entry_template_no_indent e o c d x :
  creditor_acc e = Some c → debitor_acc e = Some d →
  py_int (options_get o "ledger_indent") = Raise x →
  entry_template e o = Raise x.
Proof.
  intros Hc Hd Hn. unfold entry_template, py_indent. rewrite Hc, Hd. simpl.
  by rewrite Hn.
Qed.

Lemma entry_template_no_string e o v d :
  creditor_acc e = Some v → (∀ s, v ≠ PyStr s) →
  debitor_acc e = Some d →
  entry_template e o = (_ ← py_indent o; Raise AttributeError).
Proof.
  intros Hc Hv Hd. unfold entry_template. rewrite Hc, Hd. simpl.
  destruct (py_indent o) as [ind|]; [|done]. simpl.
  destruct v as [|s| |]; try done. by destruct (Hv s).
Qed.

(** The branch of [build_entry_string] for two debitor matches or more. *)
Lemma build_entry_string_expense e o :
  (2 ≤ length (matches_dbtr e o))%nat →
  build_entry_string e o =
    match matches_cdtr e o with
    | [] =>
        let e' := set_debitor_acc (def_asset_acc e)
                    (set_creditor_acc (PyStr "Expenses:???") e) in
        (e', entry_template e' o)
    | [m] => (assign_expense m e, entry_template (assign_expense m e) o)
    | ms => render_matches o ms e ";
; Multiple matches. Pick one
"
    end.
Proof.
  intros Hd. unfold build_entry_string. fold (matches_dbtr e o).
  destruct (matches_dbtr e o) as [|m1 [|m2 ms]] eqn:E; simpl in Hd; [lia..|].
  rewrite <- E. fold (matches_cdtr e o).
  by destruct (matches_cdtr e o) as [|c1 [|c2 cs]].
Qed.

(** X1: with two debitor matches or more and exactly one creditor match the
    outcome is SingleExpenseMatch: the title is the rule's title or else the
    creditor, the creditor-side account the rule's [cdtr_acc], [None] when
    the rule has none, the debitor-side account the rule's [dbtr_acc] or else
    the default asset account. *)
Theorem single_expense_match e o m :
  (2 ≤ length (matches_dbtr e o))%nat →
  matches_cdtr e o = [m] →
  outcome e o = SingleExpenseMatch
  ∧ title (build_entry_string e o).1 = rule_get m "title" (creditor e)
  ∧ creditor_acc (build_entry_string e o).1
    = Some (rule_get m "cdtr_acc" PyNone)
  ∧ debitor_acc (build_entry_string e o).1
    = Some (rule_get m "dbtr_acc" (def_asset_acc e))
  ∧ (build_entry_string e o).2 = entry_template (build_entry_string e o).1 o.
Proof.
  intros Hd Hc. rewrite (build_entry_string_expense e o Hd), Hc.
  split; [|by repeat split]. unfold outcome. rewrite Hc.
  by destruct (matches_dbtr e o) as [|m1 [|m2 ms]]; simpl in Hd; try lia.
Qed.

(** The loop starts from the source fields of the entry alone. *)
Lemma render_matches_from e e' o m ms acc :
  same_source_fields e e' →
  render_matches o (m :: ms) e' acc = render_matches o (m :: ms) e acc.
Proof.
  intros H. cbn [render_matches]. by rewrite (assign_expense_again e e' m H).
Qed.

(** X2: resolving an entry a second time returns what the first time
    returned and leaves the entry as the first time left it. *)
Theorem build_entry_string_again e o :
  build_entry_string (build_entry_string e o).1 o = build_entry_string e o.
Proof.
  assert (Hm : ∀ e', same_source_fields e e' →
    matches_dbtr e' o = matches_dbtr e o ∧ matches_cdtr e' o = matches_cdtr e o).
  { intros e' (_ & _ & _ & _ & _ & _ & _ & Hc & Hd & _).
    unfold matches_cdtr, matches_dbtr. by rewrite Hc, Hd. }
  rewrite (build_entry_string_cases e o).
  destruct (matches_dbtr e o) as [|m1 [|m2 ms]] eqn:E.
  - cbn zeta. cbn [fst]. set (e' := set_debitor_acc _ _).
    destruct (Hm e') as [Hd' _]; [by repeat split|].
    rewrite (build_entry_string_cases e' o), Hd'. subst e'. by destruct e.
  - cbn [fst].
    destruct (Hm (assign_income m1 e)) as [Hd' _]; [by repeat split|].
    rewrite (build_entry_string_cases (assign_income m1 e) o), Hd'.
    by destruct e.
  - destruct (matches_cdtr e o) as [|c1 [|c2 cs]] eqn:F.
    + cbn zeta. cbn [fst]. set (e' := set_debitor_acc _ _).
      destruct (Hm e') as [Hd' Hc']; [by repeat split|].
      rewrite (build_entry_string_cases e' o), Hd', Hc'. subst e'.
      by destruct e.
    + cbn [fst].
      destruct (Hm (assign_expense c1 e)) as [Hd' Hc']; [by repeat split|].
      rewrite (build_entry_string_cases (assign_expense c1 e) o), Hd', Hc'.
      by destruct e.
    + pose proof (render_matches_same o (c1 :: c2 :: cs) e ";
; Multiple matches. Pick one
") as Hs.
      set (r := render_matches o (c1 :: c2 :: cs) e _) in *.
      destruct (Hm r.1 Hs) as [Hd' Hc'].
      rewrite (build_entry_string_cases r.1 o), Hd', Hc'.
      subst r. by apply render_matches_from.
Qed.

(** X3: when the indent of the configuration does not convert to an
    integer, resolution raises what the conversion raises, in every
    outcome. *)
Theorem resolution_needs_indent e o x :
  py_int (options_get o "ledger_indent") = Raise x →
  (build_entry_string e o).2 = Raise x.
Proof.
  intros Hn. unfold build_entry_string.
  destruct (filter_rules _ "dbtr" _) as [|m1 [|m2 ms]]; cbn zeta; cbn [snd].
  1,2: by eapply entry_template_no_indent; [reflexivity|reflexivity|].
  generalize (filter_rules (m1 :: m2 :: ms) "cdtr" (creditor e)).
  intros [|c1 [|c2 cs]]; cbn zeta; cbn [snd].
  1,2: by eapply entry_template_no_indent; [reflexivity|reflexivity|].
  cbn [render_matches].
  erewrite entry_template_no_indent; [done|reflexivity|reflexivity|done].
Qed.

(** X4: for a debitor no rule matches, when the default asset account is no
    string, as when it is not configured, resolution returns no entry: it
    raises what making the indent raises, and [AttributeError] when the
    indent can be made. *)
Theorem unmatched_incoming_needs_asset e o :
  matches_dbtr e o = [] →
  (∀ s, def_asset_acc e ≠ PyStr s) →
  (build_entry_string e o).2 = (_ ← py_indent o; Raise AttributeError).
Proof.
  intros Hd Ha. rewrite build_entry_string_cases, Hd. cbn zeta. cbn [snd].
  by apply (entry_template_no_string _ _ (def_asset_acc e)
              (PyStr "Income:???")).
Qed.

(** X5: with two debitor matches or more of which exactly one matches the
    creditor, when that rule has no [cdtr_acc], resolution returns no entry,
    whatever the default asset account: it raises what making the indent
    raises, and [AttributeError] when the indent can be made. *)
Theorem single_expense_needs_account e o m :
  (2 ≤ length (matches_dbtr e o))%nat →
  matches_cdtr e o = [m] →
  m !! "cdtr_acc" = None →
  (build_entry_string e o).2 = (_ ← py_indent o; Raise AttributeError).
Proof.
  intros Hd Hc Hm. rewrite (build_entry_string_expense e o Hd), Hc.
  cbn [snd].
  apply (entry_template_no_string _ _ PyNone
           (rule_get m "dbtr_acc" (def_asset_acc e))); try done.
  simpl. unfold rule_get. by rewrite Hm.
Qed.

(** X6: when the one rule matching the debitor has no [dbtr_acc] and names
    a creditor-side account that is no split, resolution raises what making
    the indent raises and, when the indent can be made, returns the entry
    with [None] as the account of the debitor posting. *)
Theorem single_income_without_account e o m c :
  matches_dbtr e o = [m] →
  m !! "dbtr_acc" = None →
  m !! "cdtr_acc" = Some c → startswith "[[" c = false →
  (build_entry_string e o).2 =
    (ind ← py_indent o;
     Ok ((date_line (book_date e) (val_date e)
            (rule_get m "title" (creditor e))
          ++ posting_line ind c (py_str (currency e)) (py_str (amount e))
          ++ "
")
         ++ posting_line ind "None" (py_str (currency e))
              ("-" ++ py_str (amount e)))).
Proof.
  intros Hd Hm Hc Hs. rewrite build_entry_string_cases, Hd. cbn [snd].
  erewrite (entry_template_plain _ _ c PyNone); [done| |done|].
  - simpl. unfold rule_get. by rewrite Hc.
  - simpl. unfold rule_get. by rewrite Hm.
Qed.

End Branches.

(** ** The stages of the rule filter *)

Lemma filter_rules_nil_iff rs key val :
  filter_rules rs key val = [] ↔ ∀ r, r ∈ rs → ¬ rule_passes key val r.
Proof.
  split.
  - intros H r Hr Hp.
    assert (Hin : r ∈ filter_rules rs key val) by by apply elem_of_filter_rules.
    rewrite H in Hin. by apply elem_of_nil in Hin.
  - intros H. destruct (filter_rules rs key val) as [|r l] eqn:E; [done|].
    assert (Hin : r ∈ filter_rules rs key val) by (rewrite E; left).
    apply elem_of_filter_rules in Hin as [Hr Hp]. by destruct (H r Hr).
Qed.

Lemma filter_rules_app rs1 rs2 key val :
  filter_rules (rs1 ++ rs2) key val
  = (filter_rules rs1 key val ++ filter_rules rs2 key val)%list.
Proof. unfold filter_rules. apply List.filter_app. Qed.

(** X10: filtering twice by the same key and value is filtering once, and
    two filters give the same rules in either order. *)
Theorem filter_rules_stages (rs : list rule) (k1 k2 : string) (v1 v2 : pyvalue) :
  filter_rules (filter_rules rs k1 v1) k1 v1 = filter_rules rs k1 v1
  ∧ filter_rules (filter_rules rs k1 v1) k2 v2
    = filter_rules (filter_rules rs k2 v2) k1 v1.
Proof.
  unfold filter_rules. split.
  - induction rs as [|r rs IH]; [done|]. simpl.
    destruct (py_eqb (rule_get r k1 v1) v1) eqn:E; [|done].
    simpl. by rewrite E, IH.
  - induction rs as [|r rs IH]; [done|]. simpl.
    destruct (py_eqb (rule_get r k1 v1) v1) eqn:E1;
      destruct (py_eqb (rule_get r k2 v2) v2) eqn:E2; simpl;
      rewrite ?E1, ?E2, IH; done.
Qed.

Section Scope.

Context {Row : Type} `{!Python Row}.
Implicit Types (e : Entry Row) (o : Options) (m : rule).

(** X7: when every rule is scoped to an account other than the selected one,
    no rule matches and the outcome is UnmatchedIncoming, whatever the
    transaction. *)
Theorem no_rule_of_account e o :
  (∀ r, r ∈ rules o →
     ∃ a, r !! "account" = Some a ∧ options_get o "account" ≠ PyStr a) →
  matches_dbtr e o = [] ∧ outcome e o = UnmatchedIncoming.
Proof.
  intros H.
  assert (E : matches_dbtr e o = []).
  { unfold matches_dbtr.
    replace (filter_rules (rules o) "account" (options_get o "account"))
      with (@nil rule); [done|].
    symmetry. apply filter_rules_nil_iff. intros r Hr [Hp|(v & Hv & Hp)].
    - destruct (H r Hr) as (a & Ha & _). congruence.
    - destruct (H r Hr) as (a & Ha & Hne). congruence. }
  split; [done|]. unfold outcome. by rewrite E.
Qed.

(** X8: a rule with neither [account] nor [dbtr] matches every debitor, so
    the outcome is never UnmatchedIncoming; when it has no [cdtr] either the
    outcome is never UnmatchedExpense. *)
Theorem catch_all_rule e o r :
  r ∈ rules o → r !! "account" = None → r !! "dbtr" = None →
  r ∈ matches_dbtr e o
  ∧ outcome e o ≠ UnmatchedIncoming
  ∧ (r !! "cdtr" = None →
       r ∈ matches_cdtr e o ∧ outcome e o ≠ UnmatchedExpense).
Proof.
  intros Hr Ha Hd.
  assert (Hin : r ∈ matches_dbtr e o).
  { unfold matches_dbtr. apply elem_of_filter_rules. split; [|by left].
    apply elem_of_filter_rules. split; [done|by left]. }
  split; [done|]. split.
  - unfold outcome. destruct (matches_dbtr e o) as [|m1 [|m2 ms]];
      [by apply elem_of_nil in Hin|done|].
    by destruct (matches_cdtr e o) as [|c1 [|c2 cs]].
  - intros Hc.
    assert (Hin' : r ∈ matches_cdtr e o).
    { unfold matches_cdtr. apply elem_of_filter_rules. split; [done|by left]. }
    split; [done|]. unfold outcome.
    destruct (matches_dbtr e o) as [|m1 [|m2 ms]]; [done..|].
    destruct (matches_cdtr e o) as [|c1 [|c2 cs]];
      [by apply elem_of_nil in Hin'|done..].
Qed.

(** X9: a rule scoped to an account other than the selected one changes
    neither the matches nor the outcome of any transaction. *)
Theorem other_account_rule e (conf : gmap string pyvalue)
    (rs1 rs2 : list rule) (r : rule) (a : string) :
  r !! "account" = Some a →
  default PyNone (conf !! "account") ≠ PyStr a →
  matches_dbtr e {| opts := conf; rules := rs1 ++ r :: rs2 |}
  = matches_dbtr e {| opts := conf; rules := rs1 ++ rs2 |}
  ∧ matches_cdtr e {| opts := conf; rules := rs1 ++ r :: rs2 |}
    = matches_cdtr e {| opts := conf; rules := rs1 ++ rs2 |}
  ∧ outcome e {| opts := conf; rules := rs1 ++ r :: rs2 |}
    = outcome e {| opts := conf; rules := rs1 ++ rs2 |}.
Proof.
  intros Ha Hne.
  assert (E : matches_dbtr e {| opts := conf; rules := rs1 ++ r :: rs2 |}
              = matches_dbtr e {| opts := conf; rules := rs1 ++ rs2 |}).
  { unfold matches_dbtr, options_get. cbn [opts rules].
    rewrite !filter_rules_app. f_equal. f_equal.
    change (r :: rs2) with ([r] ++ rs2)%list. rewrite filter_rules_app.
    replace (filter_rules [r] "account" (default PyNone (conf !! "account")))
      with (@nil rule); [done|].
    symmetry. apply filter_rules_nil_iff. intros r' Hr' Hp.
    apply list_elem_of_singleton in Hr' as ->.
    destruct Hp as [Hp|(v & Hv & Hp)]; congruence. }
  split; [done|]. unfold outcome, matches_cdtr. by rewrite E.
Qed.

(** ** Splits *)

Lemma replace_dot_lacks_dot s : lacks_char "." (replace_dot s) = true.
Proof.
  induction s as [|c s IH]; [done|]. cbn [replace_dot replace_char lacks_char].
  fold (replace_dot s). rewrite IH.
  destruct (Ascii.eqb_spec c "."); [done|].
  destruct (Ascii.eqb_spec c "."); [done|]. done.
Qed.

Lemma split_postings_length lines ps :
  split_postings lines = Ok ps → length ps = length lines.
Proof.
  revert ps. induction lines as [|l lines IH]; intros ps; simpl.
  - by intros [= <-].
  - destruct (split_posting l); [|done]. simpl.
    destruct (split_postings lines) as [qs|]; [|done]. simpl.
    intros [= <-]. simpl. by rewrite (IH qs).
Qed.

Lemma split_postings_lack_dot lines ps :
  split_postings lines = Ok ps →
  Forall (λ p, lacks_char "." p.2 = true) ps.
Proof.
  revert ps. induction lines as [|l lines IH]; intros ps; simpl.
  - intros [= <-]. constructor.
  - unfold split_posting.
    destruct (py_getitem l 1) as [l1|]; [|done]. simpl.
    destruct (py_getitem l 0) as [l0|]; [|done]. simpl.
    destruct (split_postings lines) as [qs|]; [|done]. simpl.
    intros [= <-]. constructor; [apply replace_dot_lacks_dot|by apply IH].
Qed.

(** X11: in the posting lines of a split no sub-amount has a dot: each is
    printed with its dots replaced by commas. *)
Theorem split_amounts_lack_dot e o c cps :
  creditor_acc e = Some (PyStr c) → startswith "[[" c = true →
  creditor_postings e o = Ok cps →
  Forall (λ p, lacks_char "." p.2 = true) cps.
Proof.
  intros Hc Hs. unfold creditor_postings. rewrite Hc. simpl. rewrite Hs.
  destruct (py_eval_acc o e c) as [v|]; [|done]. simpl.
  destruct (py_iter v) as [lines|]; [|done]. simpl.
  apply split_postings_lack_dot.
Qed.

Lemma split_postings_short lines l :
  PyList l ∈ lines → (length l < 2)%nat →
  ∃ x, split_postings lines = Raise x.
Proof.
  intros Hin Hl. induction lines as [|line lines IH];
    [by apply elem_of_nil in Hin|].
  simpl. apply elem_of_cons in Hin as [<-|Hin].
  - unfold split_posting. simpl.
    rewrite (lookup_ge_None_2 l 1) by lia. simpl. eauto.
  - destruct (split_posting line); simpl; [|eauto].
    destruct (IH Hin) as (x & ->). simpl. eauto.
Qed.

(** X12: a split with a line of fewer than two items is not rendered:
    [entry_template] raises. *)
Theorem split_short_line_raises e o c d n lines l :
  creditor_acc e = Some (PyStr c) → startswith "[[" c = true →
  debitor_acc e = Some d →
  py_int (options_get o "ledger_indent") = Ok n →
  py_eval_acc o e c = Ok (PyList lines) →
  PyList l ∈ lines → (length l < 2)%nat →
  ∃ x, entry_template e o = Raise x.
Proof.
  intros Hc Hs Hd Hn Hv Hin Hl. unfold entry_template.
  rewrite Hc, Hd. simpl. rewrite (py_indent_int o n Hn).
  destruct (py_mul_space n) as [ind|]; simpl; [|eauto].
  rewrite Hs, Hv. simpl. rewrite split_lines_postings.
  destruct (split_postings_short lines l Hin Hl) as (x & ->). simpl. eauto.
Qed.

(** X13: a rendered split of [k] lines has [k + 1] postings: one per line
    and the debitor's. *)
Theorem split_posting_count e o c v lines s :
  creditor_acc e = Some (PyStr c) → startswith "[[" c = true →
  py_eval_acc o e c = Ok v → py_iter v = Ok lines →
  entry_template e o = Ok s →
  ∃ n ps,
    py_int (options_get o "ledger_indent") = Ok n
    ∧ entry_postings e o = Ok ps
    ∧ length ps = S (length lines)
    ∧ s = date_line (book_date e) (val_date e) (title e)
          ++ render_postings (spaces n) (py_str (currency e)) ps.
Proof.
  intros Hc Hs Hv Hl Ht.
  apply entry_template_text in Ht as (ind & ps & Hi & Hps & ->).
  destruct (py_indent_ok _ _ Hi) as (n & Hn & ->).
  exists n, ps. split; [done|]. split; [done|]. split; [|done].
  unfold entry_postings, creditor_postings, debitor_posting in Hps.
  rewrite Hc in Hps. simpl in Hps. rewrite Hs, Hv in Hps. simpl in Hps.
  rewrite Hl in Hps. simpl in Hps.
  destruct (split_postings lines) as [cps|] eqn:E; [|done]. simpl in Hps.
  destruct (debitor_acc e); [|done]. simpl in Hps. injection Hps as <-.
  rewrite length_app. simpl. rewrite (split_postings_length _ _ E). lia.
Qed.

(** ** Construction *)

Lemma eval_rule_needs_expression o (el : Row) f v :
  eval_rule o el f = Ok v → ∃ rule, options_get o f = PyStr rule.
Proof.
  unfold eval_rule. destruct (options_get o f) as [|rule| |]; simpl; try done.
  eauto.
Qed.

Lemma eval_rule_absent o (el : Row) f :
  (∃ rule, options_get o f = PyStr rule
           ∧ py_eval_rule o el f rule = Raise AttributeError) →
  eval_rule o el f = Ok (PyStr "None").
Proof. intros (rule & Ho & He). unfold eval_rule. rewrite Ho. simpl. by rewrite He. Qed.

(** X14: when the expression of each of the seven fields raises
    [AttributeError], the entry is constructed all the same, every field
    being the text [None]. *)
Theorem init_all_absent o (el : Row) :
  Forall (λ f, ∃ rule, options_get o f = PyStr rule
                       ∧ py_eval_rule o el f rule = Raise AttributeError)
    entry_fields →
  Entry_init el o =
    Ok {| options := o; EL := el;
          def_asset_acc := options_get o "def_asset_acc";
          book_date := PyStr "None"; val_date := PyStr "None";
          amount := PyStr "None"; currency := PyStr "None";
          creditor := PyStr "None"; creditor_acc := None;
          debitor := PyStr "None"; debitor_acc := None;
          subject := PyStr "None"; title := PyStr "None" |}.
Proof.
  unfold entry_fields. intros H.
  apply Forall_cons in H as [E1%eval_rule_absent H].
  apply Forall_cons in H as [E2%eval_rule_absent H].
  apply Forall_cons in H as [E3%eval_rule_absent H].
  apply Forall_cons in H as [E4%eval_rule_absent H].
  apply Forall_cons in H as [E5%eval_rule_absent H].
  apply Forall_cons in H as [E6%eval_rule_absent H].
  apply Forall_cons in H as [E7%eval_rule_absent _].
  unfold Entry_init. rewrite E1, E2, E3, E4. simpl. by rewrite E5, E6, E7.
Qed.

(** X15: an entry is constructed only when each of the seven fields has a
    string as its expression in the options. *)
Theorem init_needs_expressions o (el : Row) e :
  Entry_init el o = Ok e →
  Forall (λ f, ∃ rule, options_get o f = PyStr rule) entry_fields.
Proof.
  unfold Entry_init. intros H.
  destruct (eval_rule o el "book_date") eqn:E1; [|done].
  destruct (eval_rule o el "val_date") eqn:E2; [|done].
  destruct (eval_rule o el "amount") eqn:E3; [|done].
  destruct (eval_rule o el "currency") eqn:E4; [|done].
  simpl in H. destruct (py_replace_dot _); [|done].
  destruct (eval_rule o el "creditor") eqn:E5; [|done].
  destruct (eval_rule o el "debitor") eqn:E6; [|done].
  destruct (eval_rule o el "subject") eqn:E7; [|done].
  unfold entry_fields. repeat constructor;
    eauto using eval_rule_needs_expression.
Qed.

(** X16: the currency of a constructed entry is a string without dot, the
    evaluated text with its dots replaced by commas, and its amount is
    what the expression evaluated to, unchanged. *)
Theorem init_currency_and_amount o (el : Row) e :
  Entry_init el o = Ok e →
  eval_rule o el "amount" = Ok (amount e)
  ∧ ∃ c, eval_rule o el "currency" = Ok (PyStr c)
         ∧ currency e = PyStr (replace_dot c)
         ∧ lacks_char "." (replace_dot c) = true.
Proof.
  intros H. apply Entry_init_ok in H as (_ & _ & _ & _ & Ha & c & Hc & He).
  split; [done|]. exists c. auto using replace_dot_lacks_dot.
Qed.

End Scope.

(** ** The header *)

Lemma no_line_end_app a b :
  no_line_end a = true → no_line_end b = true → no_line_end (a ++ b) = true.
Proof.
  intros Ha Hb. induction a as [|c a IH]; [done|].
  change (no_line_end (String c (a ++ b)) = true).
  simpl in Ha |- *. apply andb_true_iff in Ha as [-> Ha]. by apply IH.
Qed.

Lemma comment_scan_app b s1 s2 :
  comment_scan b (s1 ++ s2) = comment_scan b s1 ≫= λ b', comment_scan b' s2.
Proof.
  revert b. induction s1 as [|c s1 IH]; intros b; [done|].
  change (comment_scan b (String c (s1 ++ s2))
          = comment_scan b (String c s1) ≫= λ b', comment_scan b' s2).
  simpl. destruct (b && negb (Ascii.eqb c ";")); [done|]. apply IH.
Qed.

Lemma comment_scan_inside s :
  no_line_end s = true → comment_scan false s = Some false.
Proof.
  induction s as [|c s IH]; [done|]. simpl.
  intros [Hc Hs]%andb_true_iff. apply negb_true_iff in Hc. rewrite Hc.
  by apply IH.
Qed.

Lemma comment_scan_line s :
  no_line_end s = true → comment_scan true ("; " ++ s ++ "
") = Some true.
Proof.
  intros Hs. change (comment_scan false (" " ++ s ++ "
") = Some true).
  rewrite comment_scan_app. simpl. rewrite comment_scan_app.
  by rewrite (comment_scan_inside s Hs).
Qed.

Section HeaderFacts.

Context {Row : Type} `{!Python Row}.
Implicit Types (e : Entry Row) (o : Options).

Lemma build_info_string_same e e' :
  same_source_fields e e' → build_info_string e' = build_info_string e.
Proof.
  intros (_ & _ & _ & Hb & Hv & _ & _ & Hc & Hd & Hs).
  unfold build_info_string. by rewrite Hb, Hv, Hc, Hd, Hs.
Qed.

(** X17: the header does not depend on resolution: it is the same text
    before and after [build_entry_string]. *)
Theorem info_string_after_resolution e o :
  build_info_string (build_entry_string e o).1 = build_info_string e.
Proof.
  apply build_info_string_same. rewrite build_entry_string_cases.
  destruct (matches_dbtr e o) as [|m1 [|m2 ms]]; [by repeat split..|].
  destruct (matches_cdtr e o) as [|c1 [|c2 cs]]; [by repeat split..|].
  apply render_matches_same.
Qed.

(** X18: when the expression of the subject raises [AttributeError], the
    header of the constructed entry shows the text [None] one character per
    comment line. *)
Theorem info_string_absent_subject o (el : Row) e rule :
  Entry_init el o = Ok e →
  options_get o "subject" = PyStr rule →
  py_eval_rule o el "subject" rule = Raise AttributeError →
  build_info_string e =
    Ok (("; " ++ py_str (book_date e) ++ "=" ++ py_str (val_date e)
         ++ ": " ++ py_str (debitor e) ++ " --> " ++ py_str (creditor e) ++ "
")
        ++ "; N
; o
; n
; e
" ++ "; " ++ repeat_string 60 "#" ++ "
").
Proof.
  intros Hi Ho He.
  assert (Hs : subject e = PyStr "None").
  { unfold Entry_init in Hi.
    destruct (eval_rule o el "book_date"); [|done].
    destruct (eval_rule o el "val_date"); [|done].
    destruct (eval_rule o el "amount"); [|done].
    destruct (eval_rule o el "currency") as [cu|]; [|done].
    simpl in Hi. destruct (py_replace_dot cu); [|done].
    destruct (eval_rule o el "creditor"); [|done].
    destruct (eval_rule o el "debitor"); [|done].
    rewrite (eval_rule_absent o el "subject") in Hi by eauto.
    simpl in Hi. by injection Hi as <-. }
  unfold build_info_string. rewrite Hs. simpl.
  by rewrite !string_app_assoc.
Qed.

Lemma subject_lines_comments lines : ∀ info,
  comment_scan true info = Some true →
  Forall (λ l, no_line_end (py_str l) = true) lines →
  comment_scan true (subject_lines info lines) = Some true.
Proof.
  induction lines as [|l lines IH]; intros info Hi Hl; [done|].
  apply Forall_cons in Hl as [Hl Hls]. simpl. apply IH; [|done].
  rewrite comment_scan_app, Hi. simpl. by apply comment_scan_line.
Qed.

(** X19: when the subject is iterable and neither its lines nor the dates,
    the debitor and the creditor contain a line end, the header is a block
    of comments: each of its lines starts with [;] and the last one is
    ended. *)
Theorem info_string_comments e lines :
  py_iter (subject e) = Ok lines →
  Forall (λ l, no_line_end (py_str l) = true) lines →
  no_line_end (py_str (book_date e)) = true →
  no_line_end (py_str (val_date e)) = true →
  no_line_end (py_str (debitor e)) = true →
  no_line_end (py_str (creditor e)) = true →
  ∃ s, build_info_string e = Ok s ∧ comment_scan true s = Some true.
Proof.
  intros Hl Hls Hb Hv Hd Hc. unfold build_info_string. rewrite Hl. simpl.
  eexists. split; [done|].
  rewrite comment_scan_app.
  rewrite subject_lines_comments; [| |done].
  - simpl. by apply (comment_scan_line (repeat_string 60 "#")).
  - assert (H : no_line_end
      (py_str (book_date e) ++ "=" ++ py_str (val_date e) ++ ": "
       ++ py_str (debitor e) ++ " --> " ++ py_str (creditor e)) = true)
      by (repeat (apply no_line_end_app; [done|]); done).
    apply comment_scan_line in H. by rewrite !string_app_assoc in H.
Qed.

End HeaderFacts.

(** ** The batch loop *)

Section MainFacts.

Context {Row : Type} `{!Python Row}.
Variable edit : string → string.
Implicit Types (o : Options) (w : World) (rows : list Row).

Lemma main_loop_dry_ledger o rows : ∀ w,
  ledger (main_loop edit o true rows w).1 = ledger w.
Proof.
  induction rows as [|el rows IH]; intros w; simpl; [done|].
  destruct (combined_text o el); [|done]. by rewrite IH.
Qed.

Lemma main_loop_appends o dryrun rows : ∀ w,
  ∃ added, ledger (main_loop edit o dryrun rows w).1 = ledger w ++ added.
Proof.
  induction rows as [|el rows IH]; intros w; simpl.
  - exists "". by rewrite string_app_nil_r.
  - destruct (combined_text o el) as [c|]; [|exists ""; by rewrite string_app_nil_r].
    destruct dryrun.
    + destruct (IH (print_combined c w)) as (a & ->). by exists a.
    + destruct (IH (append_to_ledger (edit c) w)) as (a & ->).
      exists (edit c ++ a). simpl. by rewrite string_app_assoc.
Qed.

Lemma main_loop_quiet o rows : ∀ w,
  stdout (main_loop edit o false rows w).1 = stdout w.
Proof.
  induction rows as [|el rows IH]; intros w; simpl; [done|].
  destruct (combined_text o el); [|done]. by rewrite IH.
Qed.

Lemma main_loop_app o dryrun rows1 rows2 : ∀ w,
  main_loop edit o dryrun (rows1 ++ rows2) w =
    match main_loop edit o dryrun rows1 w with
    | (w', Ok _) => main_loop edit o dryrun rows2 w'
    | (w', Raise x) => (w', Raise x)
    end.
Proof.
  induction rows1 as [|el rows1 IH]; intros w; simpl; [done|].
  destruct (combined_text o el) as [c|]; [|done].
  destruct dryrun; apply IH.
Qed.

(** X20: in a dry run the ledger file is left as it was, whatever the rows
    and whether or not a row raises. *)
Theorem dry_run_keeps_ledger o rows w :
  ledger (main edit o true rows w).1 = ledger w.
Proof. unfold main. apply main_loop_dry_ledger. Qed.

(** X21: the ledger file is only ever appended to, and outside a dry run
    nothing is printed. *)
Theorem ledger_append_only o dryrun rows w :
  (∃ added, ledger (main edit o dryrun rows w).1 = ledger w ++ added)
  ∧ stdout (main edit o false rows w).1 = stdout w.
Proof.
  unfold main. split; [apply main_loop_appends|apply main_loop_quiet].
Qed.

(** X22: the loop stops at the first row that raises: what the rows before
    it wrote stays written, and the rows after it are not looked at. *)
Theorem main_loop_stops o dryrun rows1 el rows2 w x :
  (main_loop edit o dryrun rows1 w).2 = Ok () →
  combined_text o el = Raise x →
  main_loop edit o dryrun (rows1 ++ el :: rows2) w
  = ((main_loop edit o dryrun rows1 w).1, Raise x).
Proof.
  intros H1 Hx. rewrite main_loop_app.
  destruct (main_loop edit o dryrun rows1 w) as [w' [[]|y]]; [|done].
  simpl. by rewrite Hx.
Qed.

End MainFacts.

(** ** The configuration *)

Lemma update_items_lookup items key : ∀ options,
  update_items options items !! key =
    match items_get items key with
    | Some v => Some (PyStr v)
    | None => options !! key
    end.
Proof.
  unfold update_items.
  induction items as [|[k v] items IH]; intros options; simpl; [done|].
  rewrite IH. destruct (items_get items key); [done|].
  destruct (String.eqb_spec k key) as [->|Hne].
  - by rewrite lookup_insert_eq.
  - by rewrite lookup_insert_ne.
Qed.

(** X23: the options are read in the documented precedence: the command
    line for [account] and [import_file], then the section of the selected
    account, then the section [main], then the defaults; within a section
    the last item of a key counts. *)
Theorem get_updated_options_precedence (options : gmap string pyvalue)
    (main_items account_items : list (string * string)) (args : Args)
    (rs : list rule) (key : string) :
  key ≠ "rules" → key ≠ "dryrun" →
  opts (get_updated_options options main_items account_items args rs).1 !! key =
    if String.eqb key "account" then Some (args_account args)
    else if String.eqb key "import_file" then Some (args_import_file args)
    else match items_get account_items key with
         | Some v => Some (PyStr v)
         | None =>
             match items_get main_items key with
             | Some v => Some (PyStr v)
             | None => options !! key
             end
         end.
Proof.
  intros Hr Hd. unfold get_updated_options. cbn [fst opts].
  rewrite lookup_delete_ne by done. rewrite lookup_delete_ne by done.
  destruct (String.eqb_spec key "account") as [->|Ha].
  - by rewrite lookup_insert_eq.
  - rewrite lookup_insert_ne by done.
    destruct (String.eqb_spec key "import_file") as [->|Hi].
    + by rewrite lookup_insert_eq.
    + rewrite lookup_insert_ne by done. by rewrite !update_items_lookup.
Qed.

(** ** The import file *)

Lemma string_length_app (a b : string) :
  String.length (a ++ b) = (String.length a + String.length b)%nat.
Proof.
  induction a as [|c a IH]; [done|].
  change (S (String.length (a ++ b)) = S (String.length a + String.length b)).
  by rewrite IH.
Qed.

Lemma lower_app a b : lower (a ++ b) = lower a ++ lower b.
Proof.
  induction a as [|c a IH]; [done|].
  change (String (ascii_lower c) (lower (a ++ b))
          = String (ascii_lower c) (lower a ++ lower b)). by rewrite IH.
Qed.

Lemma lower_length s : String.length (lower s) = String.length s.
Proof. induction s as [|c s IH]; [done|]. simpl. by rewrite IH. Qed.

Lemma eqb_length_ne p s :
  String.length p ≠ String.length s → String.eqb p s = false.
Proof. intros H. apply String.eqb_neq. intros ->. done. Qed.

Lemma endswith_short p s :
  (String.length s < String.length p)%nat → endswith p s = false.
Proof.
  induction s as [|c s IH]; intros H.
  - simpl. rewrite eqb_length_ne; [done|]. simpl in *. lia.
  - simpl in *. rewrite eqb_length_ne by (simpl; lia). apply IH. lia.
Qed.

Lemma endswith_same_length p a q :
  String.length p = String.length q →
  endswith p (a ++ q) = String.eqb p q.
Proof.
  intros H. induction a as [|c a IH].
  - change (endswith p q = String.eqb p q). destruct q as [|d q]; simpl.
    + by rewrite orb_false_r.
    + rewrite endswith_short by (simpl in H; lia). by rewrite orb_false_r.
  - change (endswith p (String c (a ++ q)) = String.eqb p q). simpl.
    rewrite IH. rewrite eqb_length_ne; [done|].
    simpl. rewrite string_length_app. lia.
Qed.

(** X24: the kind of the import file is decided by its last four
    characters alone, read without regard to upper and lower case: [.xml],
    [.csv], or else the file is refused. *)
Theorem import_file_kind_by_extension (name ext : string) :
  String.length ext = 4%nat →
  import_file_kind (PyStr (name ++ ext)) =
    if String.eqb ".xml" (lower ext) then inl XmlFile
    else if String.eqb ".csv" (lower ext) then inl CsvFile
    else inr ArgumentTypeError.
Proof.
  intros H. unfold import_file_kind. rewrite lower_app.
  by rewrite !endswith_same_length by by rewrite lower_length.
Qed.

(** X25: the import file is the one of the command line, whatever the
    ini-file says; without one on the command line [iterable_from_file]
    raises [AttributeError]. *)
Theorem import_file_of_command_line (options : gmap string pyvalue)
    (main_items account_items : list (string * string)) (args : Args)
    (rs : list rule) :
  options_get (get_updated_options options main_items account_items args rs).1
    "import_file" = args_import_file args
  ∧ (args_import_file args = PyNone →
     import_file_kind
       (options_get
          (get_updated_options options main_items account_items args rs).1
          "import_file") = inr NoLowerAttribute).
Proof.
  assert (E : options_get
    (get_updated_options options main_items account_items args rs).1
    "import_file" = args_import_file args).
  { unfold options_get, get_updated_options. cbn [fst opts].
    rewrite lookup_delete_ne by done. rewrite lookup_delete_ne by done.
    rewrite lookup_insert_ne by done. by rewrite lookup_insert_eq. }
  split; [done|]. intros H. by rewrite E, H.
Qed.

Lemma partition_lacks sep s :
  lacks_char sep s = true → partition sep s = (s, "", "").
Proof.
  induction s as [|c s IH]; [done|]. simpl.
  intros [Hc Hs]%andb_true_iff. apply negb_true_iff in Hc. rewrite Hc.
  by rewrite (IH Hs).
Qed.

Lemma partition_first sep a b :
  lacks_char sep a = true →
  partition sep (a ++ String sep b) = (a, String sep "", b).
Proof.
  induction a as [|c a IH]; intros H.
  - change (partition sep (String sep b) = ("", String sep "", b)).
    simpl. by rewrite Ascii.eqb_refl.
  - change (partition sep (String c (a ++ String sep b))
            = (String c a, String sep "", b)).
    simpl in H |- *. apply andb_true_iff in H as [Hc Hs].
    apply negb_true_iff in Hc. rewrite Hc. by rewrite (IH Hs).
Qed.

(** X26: a tag keeps what follows its first closing brace, and a tag
    without closing brace is kept as it is. *)
Theorem strip_namespace_first_brace (ns name : string) :
  lacks_char "}" ns = true →
  strip_namespace (ns ++ "}" ++ name) = name
  ∧ strip_namespace ns = ns.
Proof.
  intros H. unfold strip_namespace. split.
  - change ("}" ++ name) with (String "}" name).
    by rewrite (partition_first "}" ns name H).
  - by rewrite (partition_lacks "}" ns H).
Qed.

(** ** The further properties on concrete transactions *)

(** X1 at the purchase one rule knows. *)
Lemma single_expense_match_witness :
  (2 ≤ length (matches_dbtr (sample_entry options_food) options_food))%nat
  ∧ matches_cdtr (sample_entry options_food) options_food = [rule_food]
  ∧ outcome (sample_entry options_food) options_food = SingleExpenseMatch
  ∧ creditor_acc (build_entry_string (sample_entry options_food) options_food).1
    = Some (PyStr "Expenses:Food")
  ∧ debitor_acc (build_entry_string (sample_entry options_food) options_food).1
    = Some (PyStr "Assets:Giro").
Proof.
  assert (H1 : (2 ≤ length (matches_dbtr (sample_entry options_food)
                               options_food))%nat) by (vm_compute; lia).
  assert (H2 : matches_cdtr (sample_entry options_food) options_food
               = [rule_food]) by (vm_compute; reflexivity).
  split; [exact H1|]. split; [exact H2|].
  destruct (single_expense_match _ _ rule_food H1 H2) as (Ho & _ & Hc & Hd & _).
  split; [exact Ho|]. split; [exact Hc|exact Hd].
Defined.

(** X3 at an indent that is [None]. *)
Lemma resolution_needs_indent_witness :
  py_int (options_get options_no_indent "ledger_indent") = Raise TypeError
  ∧ (build_entry_string (sample_entry options_no_indent) options_no_indent).2
    = Raise TypeError.
Proof.
  split; [reflexivity|].
  exact (resolution_needs_indent (sample_entry options_no_indent)
           options_no_indent TypeError eq_refl).
Defined.

(** X4 at a salary no rule knows, without default asset account. *)
Lemma unmatched_incoming_needs_asset_witness :
  matches_dbtr salary_entry_no_asset options_no_asset = []
  ∧ (∀ s, def_asset_acc salary_entry_no_asset ≠ PyStr s)
  ∧ py_indent options_no_asset = Ok "    "
  ∧ (build_entry_string salary_entry_no_asset options_no_asset).2
    = Raise AttributeError.
Proof.
  assert (H1 : matches_dbtr salary_entry_no_asset options_no_asset = [])
    by (vm_compute; reflexivity).
  assert (H2 : ∀ s, def_asset_acc salary_entry_no_asset ≠ PyStr s)
    by (intros s H; discriminate H).
  split; [exact H1|]. split; [exact H2|]. split; [reflexivity|].
  exact (unmatched_incoming_needs_asset _ _ H1 H2).
Defined.

(** X5 at the purchase whose rule names the debitor-side account only. *)
Lemma single_expense_needs_account_witness :
  (2 ≤ length (matches_dbtr (sample_entry options_giro_only)
                 options_giro_only))%nat
  ∧ matches_cdtr (sample_entry options_giro_only) options_giro_only
    = [rule_giro_only]
  ∧ rule_giro_only !! "cdtr_acc" = None
  ∧ py_indent options_giro_only = Ok "    "
  ∧ (build_entry_string (sample_entry options_giro_only) options_giro_only).2
    = Raise AttributeError.
Proof.
  assert (H1 : (2 ≤ length (matches_dbtr (sample_entry options_giro_only)
                               options_giro_only))%nat) by (vm_compute; lia).
  assert (H2 : matches_cdtr (sample_entry options_giro_only) options_giro_only
               = [rule_giro_only]) by (vm_compute; reflexivity).
  assert (H3 : rule_giro_only !! "cdtr_acc" = None)
    by (vm_compute; reflexivity).
  split; [exact H1|]. split; [exact H2|]. split; [exact H3|].
  split; [reflexivity|].
  exact (single_expense_needs_account _ _ rule_giro_only H1 H2 H3).
Defined.

(** X6 at a salary whose rule names the creditor-side account only. *)
Lemma single_income_without_account_witness :
  matches_dbtr (salary_entry options_refund) options_refund = [rule_refund]
  ∧ rule_refund !! "dbtr_acc" = None
  ∧ rule_refund !! "cdtr_acc" = Some "Assets:Giro"
  ∧ py_indent options_refund = Ok "    "
  ∧ (build_entry_string (salary_entry options_refund) options_refund).2
    = Ok "2024-03-28=2024-03-29 Jane Doe
    Assets:Giro    EUR 2500
    None    EUR -2500".
Proof.
  assert (H1 : matches_dbtr (salary_entry options_refund) options_refund
               = [rule_refund]) by (vm_compute; reflexivity).
  assert (H2 : rule_refund !! "dbtr_acc" = None) by (vm_compute; reflexivity).
  assert (H3 : rule_refund !! "cdtr_acc" = Some "Assets:Giro")
    by (vm_compute; reflexivity).
  split; [exact H1|]. split; [exact H2|]. split; [exact H3|].
  split; [reflexivity|].
  exact (single_income_without_account _ _ rule_refund "Assets:Giro"
           H1 H2 H3 eq_refl).
Defined.

(** X7 at a rule set for the savings account, the giro account selected. *)
Lemma no_rule_of_account_witness :
  (∀ r, r ∈ rules options_savings →
     ∃ a, r !! "account" = Some a
          ∧ options_get options_savings "account" ≠ PyStr a)
  ∧ matches_dbtr (sample_entry options_savings) options_savings = []
  ∧ outcome (sample_entry options_savings) options_savings = UnmatchedIncoming.
Proof.
  assert (H : ∀ r, r ∈ rules options_savings →
     ∃ a, r !! "account" = Some a
          ∧ options_get options_savings "account" ≠ PyStr a).
  { intros r Hr. simpl in Hr. apply list_elem_of_singleton in Hr as ->.
    exists "savings". split; [vm_compute; reflexivity|].
    intros E. vm_compute in E. discriminate E. }
  split; [exact H|].
  exact (no_rule_of_account (sample_entry options_savings) options_savings H).
Defined.

(** X8 at a rule set with a rule without conditions. *)
Lemma catch_all_rule_witness :
  rule_any ∈ rules options_any
  ∧ rule_any !! "account" = None ∧ rule_any !! "dbtr" = None
  ∧ rule_any !! "cdtr" = None
  ∧ outcome (salary_entry options_any) options_any ≠ UnmatchedIncoming
  ∧ outcome (salary_entry options_any) options_any ≠ UnmatchedExpense.
Proof.
  assert (H1 : rule_any ∈ rules options_any) by (simpl; right; left).
  assert (H2 : rule_any !! "account" = None) by (vm_compute; reflexivity).
  assert (H3 : rule_any !! "dbtr" = None) by (vm_compute; reflexivity).
  assert (H4 : rule_any !! "cdtr" = None) by (vm_compute; reflexivity).
  split; [exact H1|]. split; [exact H2|]. split; [exact H3|]. split; [exact H4|].
  destruct (catch_all_rule (salary_entry options_any) options_any rule_any
              H1 H2 H3) as (_ & Hi & He).
  split; [exact Hi|]. exact (proj2 (He H4)).
Defined.

(** X9 at a savings rule among the rules of the giro account. *)
Lemma other_account_rule_witness :
  rule_savings !! "account" = Some "savings"
  ∧ default PyNone (opts options_food !! "account") ≠ PyStr "savings"
  ∧ matches_dbtr (sample_entry options_food)
      {| opts := opts options_food;
         rules := [rule_food] ++ rule_savings :: [rule_bread] |}
    = matches_dbtr (sample_entry options_food)
        {| opts := opts options_food; rules := [rule_food] ++ [rule_bread] |}.
Proof.
  assert (H1 : rule_savings !! "account" = Some "savings")
    by (vm_compute; reflexivity).
  assert (H2 : default PyNone (opts options_food !! "account")
               ≠ PyStr "savings").
  { intros E. vm_compute in E. discriminate E. }
  split; [exact H1|]. split; [exact H2|].
  exact (proj1 (other_account_rule (sample_entry options_food)
                  (opts options_food) [rule_food] [rule_bread] rule_savings
                  "savings" H1 H2)).
Defined.

(** X11 at a split with the sub-amounts [100.45] and [23.00]. *)
Lemma split_amounts_lack_dot_witness :
  creditor_acc split_decimal_entry
  = Some (PyStr "[['Expenses:Food', '100.45'], ['Expenses:Home', '23.00']]")
  ∧ creditor_postings split_decimal_entry options_split_decimal
    = Ok [("Expenses:Food", "100,45"); ("Expenses:Home", "23,00")]
  ∧ Forall (λ p, lacks_char "." p.2 = true)
      [("Expenses:Food", "100,45"); ("Expenses:Home", "23,00")].
Proof.
  assert (H1 : creditor_acc split_decimal_entry
    = Some (PyStr "[['Expenses:Food', '100.45'], ['Expenses:Home', '23.00']]"))
    by (vm_compute; reflexivity).
  assert (H2 : creditor_postings split_decimal_entry options_split_decimal
    = Ok [("Expenses:Food", "100,45"); ("Expenses:Home", "23,00")])
    by (vm_compute; reflexivity).
  split; [exact H1|]. split; [exact H2|].
  exact (split_amounts_lack_dot split_decimal_entry options_split_decimal
           _ _ H1 eq_refl H2).
Defined.

(** X12 at a split whose one line has the account only. *)
Lemma split_short_line_raises_witness :
  creditor_acc split_short_entry = Some (PyStr "[['Expenses:Food']]")
  ∧ py_eval_acc options_split_short split_short_entry "[['Expenses:Food']]"
    = Ok (PyList [PyList [PyStr "Expenses:Food"]])
  ∧ ∃ x, entry_template split_short_entry options_split_short = Raise x.
Proof.
  assert (H1 : creditor_acc split_short_entry
               = Some (PyStr "[['Expenses:Food']]"))
    by (vm_compute; reflexivity).
  assert (H2 : py_eval_acc options_split_short split_short_entry
                 "[['Expenses:Food']]"
               = Ok (PyList [PyList [PyStr "Expenses:Food"]]))
    by (vm_compute; reflexivity).
  split; [exact H1|]. split; [exact H2|].
  refine (split_short_line_raises split_short_entry options_split_short
            "[['Expenses:Food']]" (PyStr "Assets:Giro") 4
            [PyList [PyStr "Expenses:Food"]] [PyStr "Expenses:Food"]
            H1 eq_refl _ eq_refl H2 _ _).
  - vm_compute. reflexivity.
  - left.
  - simpl. lia.
Defined.

(** X13 at the split of two lines. *)
Lemma split_posting_count_witness :
  entry_template split_entry options_split =
    Ok "2024-03-01 Supermarket
    Expenses:Food    EUR 1
    Expenses:Home    EUR 2
    Assets:Giro    EUR -123.45"
  ∧ ∃ ps, entry_postings split_entry options_split = Ok ps
          ∧ length ps = 3%nat.
Proof.
  assert (H : entry_template split_entry options_split =
    Ok "2024-03-01 Supermarket
    Expenses:Food    EUR 1
    Expenses:Home    EUR 2
    Assets:Giro    EUR -123.45") by (vm_compute; reflexivity).
  split; [exact H|].
  assert (H1 : creditor_acc split_entry
    = Some (PyStr "[['Expenses:Food', 1], ['Expenses:Home', 2]]"))
    by (vm_compute; reflexivity).
  assert (H2 : py_eval_acc options_split split_entry
                 "[['Expenses:Food', 1], ['Expenses:Home', 2]]"
    = Ok (PyList [PyList [PyStr "Expenses:Food"; PyInt 1];
                  PyList [PyStr "Expenses:Home"; PyInt 2]]))
    by (vm_compute; reflexivity).
  destruct (split_posting_count split_entry options_split _ _ _ _
              H1 eq_refl H2 eq_refl H) as (n & ps & _ & Hps & Hl & _).
  exists ps. split; [exact Hps|exact Hl].
Defined.

(** X14 at a row that has none of the fields the expressions name. *)
Lemma init_all_absent_witness :
  Forall (λ f, ∃ rule, options_get options_absent f = PyStr rule
               ∧ py_eval_rule options_absent sample_row f rule
                 = Raise AttributeError) entry_fields
  ∧ ∃ e, Entry_init sample_row options_absent = Ok e
         ∧ amount e = PyStr "None" ∧ title e = PyStr "None".
Proof.
  assert (H : Forall (λ f, ∃ rule, options_get options_absent f = PyStr rule
               ∧ py_eval_rule options_absent sample_row f rule
                 = Raise AttributeError) entry_fields).
  { repeat constructor; exists "EL.absent"; split; vm_compute; reflexivity. }
  split; [exact H|].
  eexists. split; [exact (init_all_absent options_absent sample_row H)|].
  split; reflexivity.
Defined.

(** X15 and X16 at the purchase. *)
Lemma init_needs_expressions_witness :
  Entry_init sample_row options_food = Ok (sample_entry options_food)
  ∧ Forall (λ f, ∃ rule, options_get options_food f = PyStr rule) entry_fields.
Proof.
  split; [reflexivity|].
  exact (init_needs_expressions options_food sample_row
           (sample_entry options_food) eq_refl).
Defined.

Lemma init_currency_and_amount_witness :
  Entry_init sample_row options_food = Ok (sample_entry options_food)
  ∧ eval_rule options_food sample_row "amount" = Ok (PyStr "123.45")
  ∧ ∃ c, eval_rule options_food sample_row "currency" = Ok (PyStr c)
         ∧ currency (sample_entry options_food) = PyStr (replace_dot c)
         ∧ lacks_char "." (replace_dot c) = true.
Proof.
  split; [reflexivity|].
  exact (init_currency_and_amount options_food sample_row
           (sample_entry options_food) eq_refl).
Defined.

(** X18 at the row without fields. *)
Lemma info_string_absent_subject_witness :
  (∃ e, Entry_init sample_row options_absent = Ok e
        ∧ build_info_string e =
            Ok ("; None=None: None --> None
; N
; o
; n
; e
; ############################################################
"))
  ∧ options_get options_absent "subject" = PyStr "EL.absent"
  ∧ py_eval_rule options_absent sample_row "subject" "EL.absent"
    = Raise AttributeError.
Proof.
  split; [|split; vm_compute; reflexivity].
  eexists. split; [reflexivity|].
  etrans; [exact (info_string_absent_subject options_absent sample_row _
                    "EL.absent" eq_refl eq_refl eq_refl)|].
  vm_compute. reflexivity.
Defined.

(** X19 at the purchase, whose subject is a text. *)
Lemma info_string_comments_witness :
  py_iter (subject (sample_entry options_food)) = Ok (chars "groceries")
  ∧ ∃ s, build_info_string (sample_entry options_food) = Ok s
         ∧ comment_scan true s = Some true.
Proof.
  split; [reflexivity|].
  refine (info_string_comments (sample_entry options_food) (chars "groceries")
            eq_refl _ eq_refl eq_refl eq_refl eq_refl).
  simpl. repeat constructor.
Defined.

(** X22 at three rows, the second too short for the expressions. *)
Lemma main_loop_stops_witness :
  (main_loop keep_text options_indexed true [sample_row] empty_world).2 = Ok ()
  ∧ combined_text options_indexed short_row = Raise IndexError
  ∧ main_loop keep_text options_indexed true
      ([sample_row] ++ short_row :: [salary_row]) empty_world
    = ((main_loop keep_text options_indexed true [sample_row] empty_world).1,
       Raise IndexError).
Proof.
  assert (H1 : (main_loop keep_text options_indexed true [sample_row]
                  empty_world).2 = Ok ()) by (vm_compute; reflexivity).
  assert (H2 : combined_text options_indexed short_row = Raise IndexError)
    by (vm_compute; reflexivity).
  split; [exact H1|]. split; [exact H2|].
  exact (main_loop_stops keep_text options_indexed true [sample_row] short_row
           [salary_row] empty_world IndexError H1 H2).
Defined.

(** X23 at an indent given in both sections of the ini-file. *)
Lemma get_updated_options_precedence_witness :
  "ledger_indent" ≠ "rules" ∧ "ledger_indent" ≠ "dryrun"
  ∧ opts (get_updated_options default_options main_section giro_section
            args_account_only []).1 !! "ledger_indent" = Some (PyStr "8").
Proof.
  assert (H1 : "ledger_indent" ≠ "rules") by discriminate.
  assert (H2 : "ledger_indent" ≠ "dryrun") by discriminate.
  split; [exact H1|]. split; [exact H2|].
  exact (get_updated_options_precedence default_options main_section
           giro_section args_account_only [] "ledger_indent" H1 H2).
Defined.

(** X24 at a file name in capitals. *)
Lemma import_file_kind_by_extension_witness :
  String.length ".XML" = 4%nat
  ∧ import_file_kind (PyStr ("STATEMENT" ++ ".XML")) = inl XmlFile.
Proof.
  split; [reflexivity|].
  exact (import_file_kind_by_extension "STATEMENT" ".XML" eq_refl).
Defined.

(** X26 at the tag of an entry of a bank statement. *)
Lemma strip_namespace_first_brace_witness :
  lacks_char "}" statement_namespace = true
  ∧ strip_namespace (statement_namespace ++ "}" ++ "Ntry") = "Ntry"
  ∧ strip_namespace statement_namespace = statement_namespace.
Proof.
  split; [reflexivity|].
  exact (strip_namespace_first_brace statement_namespace "Ntry" eq_refl).
Defined.
